(* ===== verification/_CoqProject ===== *)
-Q . S2P
Prelude.v
PyChar.v
PyStr.v
Utf8.v
Regex.v
Clean.v
Predict.v
Extract.v
App.v
Session.v
