(* ===== verification/Prelude.v ===== *)
(** * A verification development for personality-prediction-socialmedia

    ** The program

    Three Streamlit scripts classify a social-media post as "happy" or
    "sad" with a pickled scikit-learn vectorizer and classifier.
    - [src/app1.py] loads [vectorizer.pkl] and [model.pkl], defines
      [clean_text] (four [re.sub] calls, then [.lower().strip()]),
      [predict_personality] (clean, [vectorizer.transform([cleaned])],
      [model.predict(vector)[0]]), [extract_docx_text] and
      [extract_pdf_text], and renders a single-post form and a file
      upload (csv, txt, docx, pdf), each file kind mapped to a list of
      lines or rows that are predicted one by one.
    - [src/app2.py] repeats these definitions and adds an image upload
      whose OCR text is predicted as one post; its file branch has no
      [else] for other extensions.
    - [src/app.py] is the image section alone, without the definitions:
      it calls [predict_personality] without defining it.
    The parts interact by calls only: every UI section calls
    [predict_personality] on a post, a text line, a CSV cell or an OCR
    text; [predict_personality] calls [clean_text] and the two artifacts;
    the extractors call the document libraries.  There is no state across
    requests: a Streamlit run is the script executed once, top to bottom,
    with the widget values of that interaction.

    ** The files, and what in [src/] each models

    - [Prelude]: Python text as lists of code points ([char] is [N]); the
      exceptions of the scripts and the error monad [result] with its bind
      notation (scope [result_scope]); [map_result] for list
      comprehensions and [Series.apply]; list helpers; the [pyhints] and
      [pyrw] hint databases and the tactics [bdestruct], [split_bool].
    - [PyChar]: the character classes of CPython ([Py_UNICODE_ISSPACE],
      [Py_UNICODE_ISLINEBREAK], ASCII letters); the class [UnicodeDB] of
      the two Unicode tables the scripts reach ([str.isalnum] for [\w],
      the lower-case mapping of [str.lower]), with the laws that fix them
      on ASCII and whitespace, and two instances ([ascii_db], [latin1_db]).
    - [PyStr]: [str.strip], [str.lower], [str.splitlines], [str.split],
      [lst[-1]] and [==], written after CPython.
    - [Utf8]: [bytes.decode("utf-8")] of the [.txt] branches (app1.py
      86, app2.py 99) as CPython's strict decoder [utf8_decode], byte by
      byte, with the encoder [utf8_encode] used to state its round trips.
    - [Regex]: the patterns of [clean_text] as a regular-expression syntax
      with its language [in_lang]; the greedy head matchers of [sre]; and
      [re.sub(p, '', s)] as the scan [re_sub].
    - [Clean]: [clean_text] (app1.py 17-22, app2.py 30-35).
    - [Predict]: [predict_personality] (app1.py 25-28); the artifacts as
      the interfaces [Vectorizer] and [Classifier] (one output row per
      input row); the spec's Model capability as the class [TextModel];
      the spec's test double as [Module TestDouble].
    - [Extract]: the parsed documents and the record [libs] of the library
      calls; [extract_docx_text] (31-33), [extract_pdf_text] with its loop
      state (36-43), and the CSV step [csv_predict] (77-79);
      [image_to_string], pytesseract running the program that
      [tesseract_cmd] names (app2.py sets it at line 14,
      [app2_tesseract_cmd]; app.py keeps [default_tesseract_cmd]).
    - [App]: a run of each script as a computation of the monad [ui]
      (rendered elements, then a value or an exception) with
      [try_except] for [try:]/[except Exception]; [app1_run] (app1.py),
      [app2_run] (app2.py), [app_run] (app.py), section by section;
      [to_app2], the rewording that relates what the two scripts render.
    - [Session]: a Streamlit session, one rerun per interaction: the
      interactions [event], the widget state kept across reruns
      [sstate], [react] (the values the widget calls return in a rerun),
      the executable [session] and the step relation [reach]; [leads],
      what interactions can still bring on screen.

    ** The theorems

    - Cleaning: [clean_text_is_clean] (output is lower-case letters and
      whitespace, stripped); [clean_text_ascii] (ASCII input does not
      reach the Unicode tables); [clean_text_idem_iff] (idempotent exactly
      when no "http" run is left, so the spec's idempotence fails where
      an upper-case URL survives the first pass as "https...");
      [clean_text_length] (the output is never longer than the input,
      for any Unicode tables, although [str.lower] can lengthen).
    - Regular expressions: [match_lits_plus_correct] (the matchers return
      the longest prefix in the pattern's language, and fail only when
      there is none: the class [Implements]); [re_sub_patterns_spec]
      (with each pattern of [clean_text], [re_sub] computes exactly the
      leftmost-longest deletion [sub_rel] of the pattern's language);
      [re_sub_step] (the scan's fuel never runs out); [re_sub_class] (a
      one-character class is a filter); [re_sub_id_iff].
    - Strings: [strip_stripped], [strip_nonempty_iff], the round trip
      [splitlines_join], [splitlines_concat], [split_index_last].
    - UTF-8: [utf8_decode_encode] and [utf8_decode_canonical] (the
      decoder accepts exactly the encodings of strings of scalar values,
      and inverts the encoder); [utf8_strict] (overlong forms,
      surrogates, values above U+10FFFF are rejected); [utf8_truncated]
      (a file cut inside a character raises, whatever valid text comes
      before the cut); [utf8_decode_length]
      (between one and four bytes per character).
    - Prediction: [predict_personality_spec] refines the Model capability
      (label of the cleaned text; no [IndexError]; [TypeError] on
      non-[str]); [predict_personality_clean]; the test double's runs.
    - Extraction: [extract_pdf_text_spec] (page order, blank lines
      dropped), [extract_pdf_blank_pages], [extract_text_lines];
      [csv_predict_spec] (no 'text' column: no prediction; one non-[str]
      cell: [TypeError] for the whole file).
    - Scripts: [app1_run_completes], [app2_run_completes] (no request can
      raise out of a run once the models load); [app1_startup_failure];
      [app1_post_spec]; [app1_txt_branch];
      [app1_txt_upload] (a [.txt] upload from its bytes to the table:
      UTF-8 decoding, [splitlines], the blank-line filter and the
      prediction composed);
      [app1_file_error] (an error shows one message and nothing partial);
      [unsupported_extension] (app1 reports it, app2 renders nothing);
      [app_never_predicts] (app.py never shows a prediction);
      [app2_file_branch_app1] and [app2_post_app1] (the two scripts
      agree on every input up to wording, except app2.py's silence on
      unsupported files).
    - Sessions: [session_reach_from] (the executable session implements
      the step relation); [app1_prediction_needs_press] and
      [app2_prediction_needs_press] (a prediction is on screen only after
      a press); [app1_press_predicts_typed] (the text area keeps the
      typed post across reruns until it is edited or the page reloaded);
      [app1_prediction_live] (liveness: from every widget state, typing a
      post and pressing reaches its prediction; [leads] is the
      [eventually] of the interactions, and [leads_session] ties it to
      the executable session); [app2_ocr_windows_only] (with only the
      default [tesseract] on the PATH, app2.py never predicts an image,
      because of the Windows path of line 14) and its counterpart
      [app2_image_live] (where the program exists, uploading an image
      with readable text and pressing reaches its label).

    Each theorem the manifest lists as a property is proved from a lemma
    of the component ([predict_personality_eqn], [re_sub_step],
    [utf8_decode_inv], ...) that the other proofs use, so the
    properties depend on the library and not on one another.

    ** Bounds and fuel

    [re_sub] runs [re_sub_fuel] with fuel [length s]: each step consumes
    one character or a non-empty match (the class [Consuming], an instance
    for each matcher), so [length s] steps suffice; [re_sub_fuel_stable]
    shows more fuel changes nothing and [re_sub_step] gives the unbounded
    equation.  Every other recursion is structural ([utf8_decode] reads
    up to four bytes and recurses on the rest, a subterm).  Code points
    are unbounded [N]; the only widths are those of UTF-8: bytes are
    [Byte.byte] (values below 256, [Byte.to_N_bounded]) and decoded code
    points are scalar values below 0x110000 ([scalar]).

    ** Not modelled

    The internals of the pickled artifacts (a trained model, not code);
    the parsers of pandas, python-docx, PyPDF2, PIL and tesseract, which
    enter through [libs] as results or raised exceptions (the bytes of a
    [.txt] upload too, which [utf8_decode] then decodes); the Unicode
    tables beyond their laws; Streamlit's layout, emoji and styling
    (messages keep their words), and its scheduling of reruns, taken as
    the contract of [Session].  Of pytesseract only the lookup of the
    program that [tesseract_cmd] names is modelled ([image_to_string]:
    [TesseractNotFoundError] when there is none); the OCR itself is the
    [ocr] field of [libs].  The import lines and comments of the three
    scripts are not code that runs.

    ** What is left

    - The vectorizer's tokenisation and the classifier's decision
      function: they are scikit-learn code inside the pickles, not code
      of the repository; the development proves everything against the
      interfaces [Vectorizer] and [Classifier], and the spec's
      test double ([Module TestDouble]) shows one instance.
    - pandas' CSV parser and the other document parsers: library code,
      kept as the results in [libs].
    - The liveness of app.py's image flow: there is none to prove,
      [app_never_predicts] shows no run of it ever shows a label.
    - The [type=[...]] filter of [st.file_uploader] (app1.py 70, app2.py
      83): an upload is any file; the filter only narrows the inputs the
      safety and error theorems already cover, and the unsupported-format
      branch is reached only by what it lets through.
    - Model loading per rerun is part of the session model: [session]
      gives each interaction the result of its own two [pickle.load]
      blocks, which are module-level statements of the script. *)

From Stdlib Require Import String Ascii List NArith Lia Bool Wf_nat.
Import ListNotations.

(** ** Python text

    A Python [str] is a sequence of Unicode code points; a code point is a
    natural number below 0x110000.  We keep it as [N] so that the character
    classes of [re] and [str] can be written as the numeric ranges CPython
    uses. *)

Abbreviation char := N (only parsing).
Abbreviation pystr := (list char) (only parsing).

(** ASCII literals of the development: [py "abc"] is the Python string
    ['abc']. *)
Definition py (s : string) : pystr := map N_of_ascii (list_ascii_of_string s).

(** ** Python exceptions and the result of a statement

    Every Python statement of the modelled scripts either returns a value or
    raises; [result] is that error monad, with its own bind notation. *)

Inductive exn : Type :=
  | TypeError                   (** [re.sub] on a value that is not a [str] *)
  | IndexError                  (** [seq[0]] on an empty sequence *)
  | NameError (name : string)   (** a global name that is not defined *)
  | UnicodeDecodeError          (** [bytes.decode("utf-8")] on bad input *)
  | LibraryError (what : string). (** a failure inside pandas, python-docx,
                                    PyPDF2, PIL or tesseract *)

Inductive result (A : Type) : Type :=
  | Ok (a : A)
  | Raise (e : exn).
Arguments Ok {A} a.
Arguments Raise {A} e.

Definition bind {A B} (r : result A) (k : A -> result B) : result B :=
  match r with
  | Ok a => k a
  | Raise e => Raise e
  end.

Declare Scope result_scope.
Delimit Scope result_scope with result.
Notation "x <- c ;; k" := (bind c (fun x => k))
  (at level 61, c at next level, right associativity) : result_scope.
Open Scope result_scope.

(** [map] of a raising function over a list: the first exception wins,
    as in a Python list comprehension or [Series.apply]. *)
Fixpoint map_result {A B} (f : A -> result B) (l : list A) : result (list B) :=
  match l with
  | [] => Ok []
  | x :: xs => y <- f x ;; ys <- map_result f xs ;; Ok (y :: ys)
  end.

(** ** Generic list operations shared by the components *)

Fixpoint drop_while {A} (p : A -> bool) (l : list A) : list A :=
  match l with
  | [] => []
  | x :: xs => if p x then drop_while p xs else l
  end.

Create HintDb pyhints discriminated.
Hint Constants Transparent : pyhints.
Create Rewrite HintDb pyrw.

Lemma drop_while_split {A} (p : A -> bool) (l : list A) :
  exists pre, l = pre ++ drop_while p l /\ forallb p pre = true.
Proof.
  induction l as [|x xs [pre [Hl Hp]]]; simpl.
  - exists []; auto.
  - destruct (p x) eqn:E.
    + exists (x :: pre); simpl; rewrite E, <- Hl; auto.
    + exists []; auto.
Qed.

Lemma length_drop_while {A} (p : A -> bool) (l : list A) :
  length (drop_while p l) <= length l.
Proof. induction l; simpl; [lia|]. destruct (p a); simpl; lia. Qed.

Lemma drop_while_head {A} (p : A -> bool) (l : list A) :
  match drop_while p l with [] => True | x :: _ => p x = false end.
Proof. induction l; simpl; auto. destruct (p a) eqn:E; simpl; auto. Qed.

Lemma drop_while_forallb {A} (p q : A -> bool) (l : list A) :
  forallb q l = true -> forallb q (drop_while p l) = true.
Proof.
  induction l; simpl; auto. intros H; apply andb_prop in H as [H1 H2].
  destruct (p a); simpl; auto. rewrite H1, H2; reflexivity.
Qed.

Lemma drop_while_all {A} (p : A -> bool) (l : list A) :
  forallb p l = true -> drop_while p l = [].
Proof.
  induction l; simpl; auto. intros H; apply andb_prop in H as [-> H]. auto.
Qed.

Lemma drop_while_app {A} (p : A -> bool) (l m : list A) :
  drop_while p (l ++ m) =
  if forallb p l then drop_while p m else drop_while p l ++ m.
Proof. induction l; simpl; auto. destruct (p a); simpl; auto. Qed.

Lemma forallb_rev {A} (p : A -> bool) (l : list A) :
  forallb p (rev l) = forallb p l.
Proof.
  induction l; simpl; auto. rewrite forallb_app, IHl. simpl.
  rewrite andb_true_r, andb_comm. reflexivity.
Qed.

Lemma drop_while_ext {A} (P p1 p2 : A -> bool) (l : list A) :
  (forall x, P x = true -> p1 x = p2 x) -> forallb P l = true ->
  drop_while p1 l = drop_while p2 l.
Proof.
  intros Hp. induction l; simpl; auto. intros H; apply andb_prop in H as [Ha Hl].
  rewrite (Hp a Ha). destruct (p2 a); auto.
Qed.

(** Induction on the length of a list, for scanners that consume more
    than one element per step. *)
Lemma list_length_ind {A} (P : list A -> Prop) :
  (forall l, (forall l', length l' < length l -> P l') -> P l) ->
  forall l, P l.
Proof. intros H l. apply (induction_ltof1 _ (@length A)). exact H. Qed.

Lemma map_result_ok {A B} (f : A -> B) (l : list A) :
  map_result (fun x => Ok (f x)) l = Ok (map f l).
Proof. induction l; simpl; [|rewrite IHl]; reflexivity. Qed.

(** A raising map whose function fails with one exception exactly on the
    elements outside [ok]. *)
Lemma map_result_uniform {A B} (f : A -> result B) (g : A -> B) (ok : A -> bool)
    (e : exn) (l : list A) :
  (forall x, f x = if ok x then Ok (g x) else Raise e) ->
  map_result f l = if forallb ok l then Ok (map g l) else Raise e.
Proof.
  intros Hf. induction l as [|x l IH]; simpl; [reflexivity|].
  rewrite Hf. destruct (ok x); simpl; [|reflexivity].
  rewrite IH. destruct (forallb ok l); reflexivity.
Qed.

Lemma map_result_bind {A B C} (f : A -> result B) (k : list B -> result C) (l : list A) :
  (forall x, exists y, f x = Ok y) -> exists ys, map_result f l = Ok ys.
Proof.
  intros Hf. induction l as [|x l [ys IH]]; simpl; [eauto|].
  destruct (Hf x) as [y ->]. simpl. rewrite IH. simpl. eauto.
Qed.

#[export] Hint Resolve drop_while_forallb length_drop_while : pyhints.
#[export] Hint Rewrite @map_result_ok : pyrw.

(** [bdestruct]: case on a boolean test with its equation. *)
Ltac bdestruct t := let E := fresh "E" in destruct t eqn:E.

(** [split_bool]: break boolean conjunctions and disjunctions in the
    hypotheses into their parts. *)
Ltac split_bool :=
  repeat match goal with
  | H : (_ && _)%bool = true |- _ => apply andb_prop in H as [? ?]
  | H : (_ || _)%bool = false |- _ => apply orb_false_elim in H as [? ?]
  | H : negb _ = true |- _ => apply negb_true_iff in H
  | H : negb _ = false |- _ => apply negb_false_iff in H
  end.
