(* ===== verification/PyChar.v ===== *)
(** * Character classes of CPython's [str] and [re]

    The predicates the scripts use through [re] and [str] methods, on code
    points: [\s]/[\S] and [str.strip()] share [Py_UNICODE_ISSPACE]; [\w] is
    [str.isalnum()] or underscore; [str.splitlines] breaks at
    [Py_UNICODE_ISLINEBREAK]; [str.lower] is the Unicode lower-case mapping.
    The whitespace and line-break tables are finite and written out; the
    alphanumeric and lower-case tables of the Unicode database are the
    fields of the class [UnicodeDB], with the laws that fix them on ASCII
    and on whitespace. *)

From Stdlib Require Import String List NArith Lia Bool.
From S2P Require Import Prelude.
Import ListNotations.
Open Scope N_scope.

Definition in_range (lo hi c : char) : bool := (lo <=? c) && (c <=? hi).

(** [Py_UNICODE_ISSPACE]: [_Py_ascii_whitespace] below 128 (tab, LF, VT,
    FF, CR, the four information separators 0x1C-0x1F, space) and
    [_PyUnicode_IsWhitespace] above. *)
Definition is_space (c : char) : bool :=
  in_range 9 13 c || in_range 28 32 c || (c =? 133) || (c =? 160)
  || (c =? 5760) || in_range 8192 8202 c || (c =? 8232) || (c =? 8233)
  || (c =? 8239) || (c =? 8287) || (c =? 12288).

(** [Py_UNICODE_ISLINEBREAK]: the boundaries of [str.splitlines]. *)
Definition is_linebreak (c : char) : bool :=
  in_range 10 13 c || in_range 28 30 c || (c =? 133) || (c =? 8232)
  || (c =? 8233).

Definition is_ascii_upper (c : char) : bool := in_range 65 90 c.
Definition is_ascii_lower (c : char) : bool := in_range 97 122 c.
Definition is_ascii_letter (c : char) : bool :=
  is_ascii_upper c || is_ascii_lower c.
Definition is_ascii_digit (c : char) : bool := in_range 48 57 c.
Definition is_ascii_alnum (c : char) : bool :=
  is_ascii_letter c || is_ascii_digit c.

(** ASCII lower-casing; the Unicode mapping agrees with it below 128. *)
Definition ascii_lower (c : char) : char :=
  if is_ascii_upper c then c + 32 else c.

(** The parts of the Unicode character database the scripts reach:
    [str.isalnum] per code point (used by [\w]) and the full lower-case
    mapping of [str.lower] (one code point may lower to several). *)
Class UnicodeDB := {
  u_isalnum : char -> bool;
  u_lower : char -> pystr;
  u_isalnum_ascii : forall c, c < 128 -> u_isalnum c = is_ascii_alnum c;
  u_lower_ascii : forall c, c < 128 -> u_lower c = [ascii_lower c];
  u_lower_space : forall c, is_space c = true -> u_lower c = [c]
}.

(** [\w] of a [str] pattern: [SRE_UNI_IS_WORD]. *)
Definition is_word `{UnicodeDB} (c : char) : bool :=
  u_isalnum c || (c =? 95).

(** ** Facts on the classes *)

Ltac char_bool :=
  repeat match goal with
  | H : _ = false |- _ => apply not_true_iff_false in H
  | |- _ = false => apply not_true_iff_false
  end;
  repeat rewrite ?orb_true_iff, ?andb_true_iff, ?N.leb_le, ?N.eqb_eq in *.

Ltac char_class :=
  unfold is_space, is_linebreak, is_ascii_letter, is_ascii_upper,
    is_ascii_lower, is_ascii_digit, is_ascii_alnum, ascii_lower, in_range in *;
  repeat match goal with |- context [if ?b then _ else _] =>
    let E := fresh "E" in destruct b eqn:E end;
  unfold is_ascii_upper, in_range in *;
  try match goal with |- _ = false => apply not_true_iff_false; intro end;
  repeat rewrite ?orb_true_iff, ?andb_true_iff, ?orb_false_iff,
    ?andb_false_iff, ?N.leb_le, ?N.leb_gt, ?N.eqb_eq, ?N.eqb_neq in *;
  try lia.

Lemma letter_not_space c : is_ascii_letter c = true -> is_space c = false.
Proof. intros H. char_class. Qed.

Lemma linebreak_space c : is_linebreak c = true -> is_space c = true.
Proof. intros H. char_class. Qed.

Lemma letter_ascii c : is_ascii_letter c = true -> c < 128.
Proof. intros H. char_class. Qed.

Lemma ascii_lower_letter c :
  is_ascii_letter c = true -> is_ascii_lower (ascii_lower c) = true.
Proof. intros H. char_class. Qed.

Lemma ascii_lower_lower c : is_ascii_lower c = true -> ascii_lower c = c.
Proof. intros H. char_class. Qed.

Lemma ascii_lower_space c : is_space c = true -> ascii_lower c = c.
Proof. intros H. char_class. Qed.

(** A database that knows only ASCII; it satisfies the laws, and the
    concrete runs of the development use it. *)
Definition ascii_db : UnicodeDB.
Proof.
  refine {| u_isalnum := is_ascii_alnum; u_lower c := [ascii_lower c] |};
    [reflexivity | reflexivity | intros c Hc; f_equal].
  apply ascii_lower_space; exact Hc.
Defined.

(** A database that also knows the Latin-1 letters and numerals
    (U+00AA, U+00B2-U+00B3, U+00B5, U+00B9-U+00BA, U+00BC-U+00BE,
    U+00C0-U+00FF but U+00D7 and U+00F7), with the lower-casing of
    U+00C0-U+00DE: a second concrete instance of the laws. *)
Definition latin1_alnum (c : char) : bool :=
  is_ascii_alnum c || (c =? 170) || in_range 178 179 c || (c =? 181)
  || in_range 185 186 c || in_range 188 190 c
  || (in_range 192 255 c && negb (c =? 215) && negb (c =? 247)).

Definition latin1_lower (c : char) : char :=
  if in_range 192 222 c && negb (c =? 215) then c + 32 else ascii_lower c.

Definition latin1_db : UnicodeDB.
Proof.
  refine {| u_isalnum := latin1_alnum; u_lower c := [latin1_lower c] |}.
  - intros c Hc. unfold latin1_alnum. destruct (is_ascii_alnum c); [reflexivity|].
    simpl. char_class.
  - intros c Hc. unfold latin1_lower. f_equal.
    destruct (in_range 192 222 c && negb (c =? 215)) eqn:E; [exfalso; char_class|].
    reflexivity.
  - intros c Hc. unfold latin1_lower. f_equal.
    destruct (in_range 192 222 c && negb (c =? 215)) eqn:E; [exfalso; char_class|].
    apply ascii_lower_space, Hc.
Defined.

#[export] Hint Resolve letter_not_space linebreak_space letter_ascii
  ascii_lower_letter ascii_lower_lower ascii_lower_space : pyhints.
