(* ===== verification/PyStr.v ===== *)
(** * The [str] methods the scripts call

    [str.strip()], [str.lower()], [str.splitlines()], [str.split('.')] and
    the truth value of [s.strip()], each written after CPython's
    implementation (Objects/stringlib/split.h, Objects/unicodeobject.c),
    with their functional specifications and a round trip of
    [splitlines]. *)

From Stdlib Require Import String List NArith Lia Bool.
From S2P Require Import Prelude PyChar.
Import ListNotations.
Open Scope N_scope.

(** ** Strip *)

(** [str.lstrip()], [str.rstrip()] and [str.strip()] with no argument:
    [do_strip] with [striptype BOTHSTRIP] advances [i] past the leading
    and [j] before the trailing [Py_UNICODE_ISSPACE] characters. *)
Definition lstrip (s : pystr) : pystr := drop_while is_space s.
Definition rstrip (s : pystr) : pystr := rev (drop_while is_space (rev s)).
Definition strip (s : pystr) : pystr := rstrip (lstrip s).

(** The truth value of [s.strip()]: [false] exactly when [s] is empty or
    made of whitespace; [if s.strip():] and [s.strip() == ''] test it. *)
Definition strip_nonempty (s : pystr) : bool :=
  match strip s with [] => false | _ => true end.

(** A string with no whitespace at either end. *)
Definition stripped (t : pystr) : bool :=
  match t with
  | [] => true
  | c :: _ => negb (is_space c) && negb (is_space (last t 0))
  end.

(** ** Lower *)

Section Lower.
Context {U : UnicodeDB}.

(** [str.lower()]: the full lower-case mapping of each code point. *)
Definition lower (s : pystr) : pystr := flat_map u_lower s.

End Lower.

(** ** Splitlines *)

(** [str.splitlines()] ([keepends=False]): a line ends at any
    [Py_UNICODE_ISLINEBREAK] character, a CR LF pair counts as one break,
    and no empty line is produced after a final break.  [cur] holds the
    current line reversed. *)
Fixpoint splitlines_go (cur : pystr) (s : pystr) : list pystr :=
  match s with
  | [] => match cur with [] => [] | _ => [rev cur] end
  | c :: t =>
      if is_linebreak c then
        rev cur :: match t with
                   | d :: t' => if (c =? 13) && (d =? 10)
                                then splitlines_go [] t'
                                else splitlines_go [] t
                   | [] => splitlines_go [] t
                   end
      else splitlines_go (c :: cur) t
  end.

Definition splitlines (s : pystr) : list pystr := splitlines_go [] s.

(** ** Split on one character *)

(** [str.split(sep)] for a one-character [sep]: [count(sep) + 1] pieces,
    empty ones included. *)
Fixpoint split_go (sep : char) (cur : pystr) (s : pystr) : list pystr :=
  match s with
  | [] => [rev cur]
  | c :: t =>
      if c =? sep then rev cur :: split_go sep [] t
      else split_go sep (c :: cur) t
  end.

Definition split (sep : char) (s : pystr) : list pystr := split_go sep [] s.

(** [lst[-1]] on a list: [IndexError] when it is empty. *)
Definition index_last {A} (l : list A) : result A :=
  match rev l with
  | [] => Raise IndexError
  | x :: _ => Ok x
  end.

(** Equality of two [str]. *)
Fixpoint str_eqb (s t : pystr) : bool :=
  match s, t with
  | [], [] => true
  | c :: s', d :: t' => (c =? d) && str_eqb s' t'
  | _, _ => false
  end.

(** * Properties *)

(** ** Strip *)

Lemma rev_drop_while_split (s : pystr) :
  exists suf, s = rstrip s ++ suf /\ forallb is_space suf = true.
Proof.
  unfold rstrip. destruct (drop_while_split is_space (rev s)) as [pre [H Hp]].
  exists (rev pre). split.
  - rewrite <- (rev_involutive s) at 1. rewrite H at 1.
    rewrite rev_app_distr. reflexivity.
  - rewrite forallb_forall in *. intros x Hx. apply Hp, in_rev. exact Hx.
Qed.

Lemma rstrip_nil_iff (s : pystr) :
  rstrip s = [] <-> forallb is_space s = true.
Proof.
  destruct (rev_drop_while_split s) as [suf [Hs Hsuf]]. split.
  - intros E. rewrite Hs, E. exact Hsuf.
  - intros H. unfold rstrip. rewrite drop_while_all; [reflexivity|].
    rewrite forallb_rev. exact H.
Qed.

Lemma rstrip_last (s : pystr) :
  rstrip s = [] \/ is_space (last (rstrip s) 0) = false.
Proof.
  unfold rstrip. pose proof (drop_while_head is_space (rev s)) as H.
  destruct (drop_while is_space (rev s)) as [|c t]; [now left|right].
  simpl rev. rewrite last_last. exact H.
Qed.

Lemma lstrip_forallb (s : pystr) :
  forallb is_space s = true -> lstrip s = [].
Proof. apply drop_while_all. Qed.

Lemma rstrip_head (c : char) (t : pystr) :
  is_space c = false -> rstrip (c :: t) = c :: rstrip t.
Proof.
  intros Hc. unfold rstrip. simpl rev. rewrite drop_while_app.
  destruct (forallb is_space (rev t)) eqn:E.
  - rewrite (drop_while_all _ (rev t) E). simpl. rewrite Hc. reflexivity.
  - rewrite rev_app_distr. reflexivity.
Qed.

(** [strip] removes exactly the whitespace at the two ends. *)
Lemma strip_split (s : pystr) :
  exists pre suf, s = pre ++ strip s ++ suf /\
    forallb is_space pre = true /\ forallb is_space suf = true.
Proof.
  destruct (drop_while_split is_space s) as [pre [Hs Hpre]].
  destruct (rev_drop_while_split (lstrip s)) as [suf [Hl Hsuf]].
  exists pre, suf. unfold strip. repeat split; auto.
  rewrite Hs at 1. fold (lstrip s). rewrite Hl at 1. reflexivity.
Qed.

Lemma strip_stripped (s : pystr) : stripped (strip s) = true.
Proof.
  unfold strip. pose proof (drop_while_head is_space s) as Hh.
  fold (lstrip s) in Hh. destruct (lstrip s) as [|c t]; [reflexivity|].
  rewrite rstrip_head by exact Hh. unfold stripped.
  rewrite Hh. simpl.
  destruct (rstrip_last t) as [E|E].
  - rewrite E. simpl. rewrite Hh. reflexivity.
  - destruct (rstrip t) as [|d u]; simpl in *; [rewrite Hh; reflexivity|].
    exact (f_equal negb E).
Qed.

Lemma strip_nil_iff (s : pystr) : strip s = [] <-> forallb is_space s = true.
Proof.
  destruct (strip_split s) as [pre [suf [Hs [Hp Hq]]]]. split.
  - intros E. rewrite Hs, E, forallb_app, forallb_app, Hp, Hq. reflexivity.
  - intros H. unfold strip. rewrite lstrip_forallb by exact H. reflexivity.
Qed.

Lemma strip_nonempty_iff (s : pystr) :
  strip_nonempty s = negb (forallb is_space s).
Proof.
  unfold strip_nonempty. destruct (forallb is_space s) eqn:E.
  - apply strip_nil_iff in E. rewrite E. reflexivity.
  - destruct (strip s) eqn:S; [|reflexivity].
    apply strip_nil_iff in S. congruence.
Qed.

Lemma rstrip_snoc (t : pystr) (d : char) :
  is_space d = false -> rstrip (t ++ [d]) = t ++ [d].
Proof.
  intros H. unfold rstrip. rewrite rev_app_distr. simpl. rewrite H.
  simpl. rewrite rev_involutive. reflexivity.
Qed.

(** [strip] does nothing on a string without whitespace at its ends. *)
Lemma strip_id (t : pystr) : stripped t = true -> strip t = t.
Proof.
  destruct t as [|c u]; [reflexivity|]. unfold stripped. intros H. split_bool.
  unfold strip, lstrip. simpl. rewrite H.
  destruct (exists_last (l := c :: u) ltac:(discriminate)) as [t [d E]].
  rewrite E in *. rewrite last_last in *. apply rstrip_snoc. assumption.
Qed.

#[export] Hint Resolve strip_stripped strip_id : pyhints.

(** ** Splitlines *)

(** No line holds a line-break character. *)
Lemma splitlines_go_nobreak (s cur : pystr) :
  forallb (fun c => negb (is_linebreak c)) cur = true ->
  Forall (fun l => forallb (fun c => negb (is_linebreak c)) l = true)
    (splitlines_go cur s).
Proof.
  revert cur. induction s as [s IH] using list_length_ind; intros cur Hcur.
  destruct s as [|c t]; simpl.
  - destruct cur; constructor; auto. rewrite forallb_rev; exact Hcur.
  - destruct (is_linebreak c) eqn:Ec.
    + constructor; [rewrite forallb_rev; exact Hcur|].
      destruct t as [|d t']; [|destruct ((c =? 13) && (d =? 10))];
        apply IH; simpl; auto; lia.
    + apply IH; simpl; [lia|]. rewrite Ec, Hcur. reflexivity.
Qed.

(** Only line breaks are lost: the lines, concatenated, are the input
    without its line-break characters. *)
Lemma splitlines_go_concat (s cur : pystr) :
  concat (splitlines_go cur s) =
  rev cur ++ filter (fun c => negb (is_linebreak c)) s.
Proof.
  revert cur. induction s as [s IH] using list_length_ind; intros cur.
  destruct s as [|c t]; simpl.
  - destruct cur; simpl; rewrite ?app_nil_r; reflexivity.
  - destruct (is_linebreak c) eqn:Ec; simpl.
    + f_equal. destruct t as [|d t']; [rewrite IH; simpl; auto; lia|].
      destruct ((c =? 13) && (d =? 10)) eqn:E;
        rewrite IH by (simpl; lia); [|reflexivity].
      split_bool. apply N.eqb_eq in H0. subst d. reflexivity.
    + rewrite IH by (simpl; lia). simpl. rewrite <- app_assoc. reflexivity.
Qed.

Lemma splitlines_go_line (l rest cur : pystr) :
  forallb (fun c => negb (is_linebreak c)) l = true ->
  splitlines_go cur (l ++ 10 :: rest) = (rev cur ++ l) :: splitlines_go [] rest.
Proof.
  revert cur. induction l as [|c l IH]; intros cur Hl; simpl in *.
  - rewrite app_nil_r. destruct rest; reflexivity.
  - split_bool. rewrite H, IH by exact H0.
    simpl. rewrite <- app_assoc. reflexivity.
Qed.

(** Round trip: [splitlines] gives back lines that were each ended by
    ["\n"], empty lines included. *)
Lemma splitlines_join (ls : list pystr) :
  Forall (fun l => forallb (fun c => negb (is_linebreak c)) l = true) ls ->
  splitlines (concat (map (fun l => l ++ [10]) ls)) = ls.
Proof.
  unfold splitlines. induction 1 as [|l ls Hl Hls IH]; [reflexivity|].
  simpl. rewrite <- app_assoc. simpl. rewrite splitlines_go_line by exact Hl.
  rewrite IH. reflexivity.
Qed.

(** ** Split *)

Lemma split_go_nonempty (sep : char) (cur s : pystr) : split_go sep cur s <> [].
Proof.
  revert cur. induction s; intros cur; simpl; [discriminate|].
  destruct (a =? sep); [discriminate | apply IHs].
Qed.

Lemma split_go_last (sep : char) (cur s : pystr) :
  ~ In sep s -> index_last (split_go sep cur s) = Ok (rev cur ++ s).
Proof.
  revert cur. induction s as [|c s IH]; intros cur Hs; simpl.
  - rewrite app_nil_r. reflexivity.
  - destruct (N.eqb_spec c sep) as [->|Hne]; [exfalso; apply Hs; now left|].
    rewrite IH by (intros H; apply Hs; now right). simpl.
    rewrite <- app_assoc. reflexivity.
Qed.

Lemma index_last_cons {A} (x : A) (l : list A) :
  l <> [] -> index_last (x :: l) = index_last l.
Proof.
  intros H. unfold index_last. simpl.
  destruct (rev l) eqn:E; [|reflexivity].
  exfalso. apply H. rewrite <- (rev_involutive l), E. reflexivity.
Qed.

(** [s.split(sep)[-1]] is the text after the last [sep]. *)
Lemma split_index_last (sep : char) (name e : pystr) :
  ~ In sep e -> index_last (split sep (name ++ sep :: e)) = Ok e.
Proof.
  unfold split. generalize (@nil char) as cur.
  induction name as [|c name IH]; intros cur He; simpl.
  - rewrite N.eqb_refl, index_last_cons by apply split_go_nonempty.
    apply split_go_last, He.
  - destruct (c =? sep).
    + rewrite index_last_cons by apply split_go_nonempty. apply IH, He.
    + apply IH, He.
Qed.

(** The lines of [s.splitlines()], concatenated, are [s] without its
    line-break characters. *)
Theorem splitlines_concat (s : pystr) :
  concat (splitlines s) = filter (fun c => negb (is_linebreak c)) s.
Proof. apply splitlines_go_concat. Qed.

(** No line of [s.splitlines()] holds a line break. *)
Theorem splitlines_nobreak (s : pystr) :
  Forall (fun l => forallb (fun c => negb (is_linebreak c)) l = true) (splitlines s).
Proof. apply splitlines_go_nobreak. reflexivity. Qed.

(** ['hello\n\nworld\n'.splitlines()] is [['hello', '', 'world']]; a
    final ["\r\n"] is one break. *)
Example splitlines_example :
  splitlines (py "hello" ++ [10] ++ [10] ++ py "world" ++ [10]) = [py "hello"; []; py "world"] /\
  splitlines (py "a" ++ [13; 10] ++ py "b" ++ [13; 10]) = [py "a"; py "b"].
Proof. split; reflexivity. Qed.

Lemma splitlines_join_witness :
  Forall (fun l => forallb (fun c => negb (is_linebreak c)) l = true) [py "a"; []; py "bc"] /\
  splitlines (concat (map (fun l => l ++ [10]) [py "a"; []; py "bc"])) = [py "a"; []; py "bc"].
Proof.
  assert (H : Forall (fun l => forallb (fun c => negb (is_linebreak c)) l = true)
                [py "a"; []; py "bc"]) by (repeat constructor).
  split; [exact H | apply splitlines_join, H].
Defined.

Lemma split_index_last_witness :
  ~ In 46 (py "CSV") /\ index_last (split 46 (py "notes.tar" ++ 46 :: py "CSV")) = Ok (py "CSV").
Proof.
  assert (H : ~ In 46 (py "CSV")) by (simpl; lia).
  split; [exact H | apply split_index_last, H].
Defined.

Lemma str_eqb_eq (s t : pystr) : str_eqb s t = true <-> s = t.
Proof.
  revert t. induction s as [|c s IH]; intros [|d t]; simpl;
    try (split; congruence).
  rewrite andb_true_iff, IH, N.eqb_eq. split; [intros [-> ->]; reflexivity|].
  intros H; injection H as -> ->. auto.
Qed.

(** [str.splitlines] also breaks at a form feed, a vertical tab, the
    information separators and U+0085, U+2028, U+2029. *)
Example splitlines_other_breaks :
  splitlines (py "a" ++ [12] ++ py "b" ++ [11] ++ py "c" ++ [8232] ++ py "d") =
  [py "a"; py "b"; py "c"; py "d"].
Proof. reflexivity. Qed.
