(* ===== verification/Utf8.v ===== *)
(** * [bytes.decode("utf-8")] (app1.py line 86, app2.py line 99)

    The strict UTF-8 decoder of CPython ([errors="strict"]): a lead byte
    below 0x80 is one code point; 0xC2-0xDF, 0xE0-0xEF and 0xF0-0xF4 open
    sequences of two, three and four bytes whose continuation bytes lie in
    0x80-0xBF, the second byte being narrowed after 0xE0 (no overlong
    form), 0xED (no surrogate), 0xF0 (no overlong form) and 0xF4 (nothing
    above U+10FFFF).  Anything else raises [UnicodeDecodeError].  With the
    encoder [utf8_encode], the two round trips show that the decoder
    accepts exactly the canonical encodings of Unicode scalar values. *)

From Stdlib Require Import String List NArith Lia Bool.
From S2P Require Import Prelude PyChar.
Import ListNotations.
Open Scope N_scope.

#[local] Arguments Byte.to_N : simpl never.

(** ** The decoder *)

(** How many bytes the sequence that this lead byte opens has; [0] for a
    byte that cannot start one. *)
Definition lead_len (n0 : N) : nat :=
  if n0 <? 128 then 1 else if n0 <? 194 then 0 else if n0 <? 224 then 2
  else if n0 <? 240 then 3 else if n0 <? 245 then 4 else 0.

Definition is_cont (n : N) : bool := in_range 128 191 n.

(** The range of the second byte after lead byte [n0]. *)
Definition second_ok (n0 n1 : N) : bool :=
  if n0 =? 224 then in_range 160 191 n1
  else if n0 =? 237 then in_range 128 159 n1
  else if n0 =? 240 then in_range 144 191 n1
  else if n0 =? 244 then in_range 128 143 n1
  else is_cont n1.

Definition val2 (n0 n1 : N) : char := (n0 - 192) * 64 + (n1 - 128).
Definition val3 (n0 n1 n2 : N) : char :=
  (n0 - 224) * 4096 + (n1 - 128) * 64 + (n2 - 128).
Definition val4 (n0 n1 n2 n3 : N) : char :=
  (n0 - 240) * 262144 + (n1 - 128) * 4096 + (n2 - 128) * 64 + (n3 - 128).

Fixpoint utf8_decode (bs : list Byte.byte) : result pystr :=
  match bs with
  | [] => Ok []
  | b0 :: r0 =>
      let n0 := Byte.to_N b0 in
      match lead_len n0, r0 with
      | 1%nat, _ => cs <- utf8_decode r0 ;; Ok (n0 :: cs)
      | 2%nat, b1 :: r1 =>
          if second_ok n0 (Byte.to_N b1)
          then cs <- utf8_decode r1 ;; Ok (val2 n0 (Byte.to_N b1) :: cs)
          else Raise UnicodeDecodeError
      | 3%nat, b1 :: b2 :: r2 =>
          if second_ok n0 (Byte.to_N b1) && is_cont (Byte.to_N b2)
          then cs <- utf8_decode r2 ;;
               Ok (val3 n0 (Byte.to_N b1) (Byte.to_N b2) :: cs)
          else Raise UnicodeDecodeError
      | 4%nat, b1 :: b2 :: b3 :: r3 =>
          if second_ok n0 (Byte.to_N b1) && is_cont (Byte.to_N b2) && is_cont (Byte.to_N b3)
          then cs <- utf8_decode r3 ;;
               Ok (val4 n0 (Byte.to_N b1) (Byte.to_N b2) (Byte.to_N b3) :: cs)
          else Raise UnicodeDecodeError
      | _, _ => Raise UnicodeDecodeError
      end
  end.

(** ** The encoder *)

(** A Unicode scalar value: a code point that is not a surrogate. *)
Definition scalar (c : char) : bool := (c <? 1114112) && negb (in_range 55296 57343 c).

Definition encode_char (c : char) : list N :=
  if c <? 128 then [c]
  else if c <? 2048 then [192 + c / 64; 128 + c mod 64]
  else if c <? 65536 then [224 + c / 4096; 128 + (c / 64) mod 64; 128 + c mod 64]
  else [240 + c / 262144; 128 + (c / 4096) mod 64; 128 + (c / 64) mod 64; 128 + c mod 64].

Definition byte_of (n : N) : Byte.byte :=
  match Byte.of_N n with Some b => b | None => Byte.x00 end.

Definition utf8_encode (cs : pystr) : list Byte.byte :=
  flat_map (fun c => map byte_of (encode_char c)) cs.

(** ** Bytes as numbers *)

Lemma to_N_byte_of (n : N) : n < 256 -> Byte.to_N (byte_of n) = n.
Proof.
  intros H. unfold byte_of.
  pose proof (Byte.to_of_N_option_map n) as E.
  destruct (Byte.of_N n) as [b|]; simpl in E;
    destruct (N.leb_spec n 255); try lia; congruence.
Qed.

Lemma byte_of_to_N (b : Byte.byte) : byte_of (Byte.to_N b) = b.
Proof. unfold byte_of. now rewrite Byte.of_to_N. Qed.

(** Evaluate every comparison of constants and [c] in the goal that [lia]
    decides under the hypotheses. *)
Ltac ncmp :=
  repeat first
    [ rewrite (proj2 (N.ltb_lt _ _)) by lia
    | rewrite (proj2 (N.ltb_ge _ _)) by lia
    | rewrite (proj2 (N.leb_le _ _)) by lia
    | rewrite (proj2 (N.leb_gt _ _)) by lia
    | rewrite (proj2 (N.eqb_eq _ _)) by lia
    | rewrite (proj2 (N.eqb_neq _ _)) by lia ];
  cbn -[Byte.to_N byte_of N.div N.modulo N.mul N.add N.sub].

(** The code point of each sequence length, given by its base-64 digits. *)
Lemma decode_seq1 (c : char) rest : c < 128 ->
  utf8_decode (byte_of c :: rest) = (cs <- utf8_decode rest ;; Ok (c :: cs)).
Proof. intros. cbn [utf8_decode]. rewrite to_N_byte_of by lia. unfold lead_len. now ncmp. Qed.

Lemma decode_seq2 (a r : N) rest : 2 <= a < 32 -> r < 64 ->
  utf8_decode (byte_of (192 + a) :: byte_of (128 + r) :: rest)
  = (cs <- utf8_decode rest ;; Ok (64 * a + r :: cs)).
Proof.
  intros. cbn [utf8_decode]. rewrite !to_N_byte_of by lia.
  replace (val2 _ _) with (64 * a + r) by (unfold val2; lia).
  unfold lead_len, second_ok, is_cont, in_range. now ncmp.
Qed.

Lemma decode_seq3 (a m r : N) rest : a < 16 -> m < 64 -> r < 64 ->
  (a = 0 -> 32 <= m) -> (a = 13 -> m < 32) ->
  utf8_decode (byte_of (224 + a) :: byte_of (128 + m) :: byte_of (128 + r) :: rest)
  = (cs <- utf8_decode rest ;; Ok (4096 * a + 64 * m + r :: cs)).
Proof.
  intros. cbn [utf8_decode]. rewrite !to_N_byte_of by lia.
  replace (val3 _ _ _) with (4096 * a + 64 * m + r) by (unfold val3; lia).
  unfold lead_len, second_ok, is_cont, in_range.
  destruct (N.eq_dec a 0); [|destruct (N.eq_dec a 13)]; now ncmp.
Qed.

Lemma decode_seq4 (a m1 m2 r : N) rest : a <= 4 -> m1 < 64 -> m2 < 64 -> r < 64 ->
  (a = 0 -> 16 <= m1) -> (a = 4 -> m1 < 16) ->
  utf8_decode (byte_of (240 + a) :: byte_of (128 + m1) :: byte_of (128 + m2)
               :: byte_of (128 + r) :: rest)
  = (cs <- utf8_decode rest ;; Ok (262144 * a + 4096 * m1 + 64 * m2 + r :: cs)).
Proof.
  intros. cbn [utf8_decode]. rewrite !to_N_byte_of by lia.
  replace (val4 _ _ _ _) with (262144 * a + 4096 * m1 + 64 * m2 + r) by (unfold val4; lia).
  unfold lead_len, second_ok, is_cont, in_range.
  destruct (N.eq_dec a 0); [|destruct (N.eq_dec a 4)]; now ncmp.
Qed.

Lemma bind_cons_eq {A} (m : result (list A)) (a b : A) :
  a = b -> (cs <- m ;; Ok (a :: cs)) = (cs <- m ;; Ok (b :: cs)).
Proof. now intros ->. Qed.

(** Base-64 digits of a code point. *)
Lemma digits (c : N) : c = 64 * (c / 64) + c mod 64 /\ c mod 64 < 64.
Proof. split; [apply N.div_mod; lia | apply N.mod_lt; lia]. Qed.

Lemma div_64_64 (c : N) : c / 64 / 64 = c / 4096.
Proof. rewrite N.Div0.div_div. reflexivity. Qed.

Lemma div_4096_64 (c : N) : c / 4096 / 64 = c / 262144.
Proof. rewrite N.Div0.div_div. reflexivity. Qed.

(** Replace the base-64 digits of [c] by variables tied to [c] by linear
    equations, which [lia] handles where it does not see through [N.div]. *)
Ltac digits_of c :=
  pose proof (digits c) as [? ?]; pose proof (digits (c / 64)) as [? ?];
  pose proof (digits (c / 4096)) as [? ?]; rewrite ?div_64_64, ?div_4096_64 in *;
  let r0 := fresh "r" in let q1 := fresh "q" in let m1 := fresh "m" in
  let q2 := fresh "q" in let m2 := fresh "m" in let q3 := fresh "q" in
  set (r0 := c mod 64) in *; set (q1 := c / 64) in *; set (m1 := q1 mod 64) in *;
  set (q2 := c / 4096) in *; set (m2 := q2 mod 64) in *; set (q3 := c / 262144) in *;
  clearbody r0 q1 m1 q2 m2 q3.

Lemma decode_encode_char (c : char) (rest : list Byte.byte) :
  scalar c = true ->
  utf8_decode (map byte_of (encode_char c) ++ rest)
  = (cs <- utf8_decode rest ;; Ok (c :: cs)).
Proof.
  unfold scalar, in_range. intros H.
  apply andb_prop in H as [H1 H2]. apply N.ltb_lt in H1.
  apply negb_true_iff, andb_false_iff in H2.
  rewrite N.leb_gt, N.leb_gt in H2.
  unfold encode_char. digits_of c.
  destruct (N.ltb_spec c 128); [|destruct (N.ltb_spec c 2048); [|destruct (N.ltb_spec c 65536)]];
    cbn [map app].
  - now apply decode_seq1.
  - rewrite decode_seq2 by lia. apply bind_cons_eq. lia.
  - rewrite decode_seq3 by lia. apply bind_cons_eq. lia.
  - rewrite decode_seq4 by lia. apply bind_cons_eq. lia.
Qed.

Lemma div_mod_eval (k q r : N) : r < k ->
  (k * q + r) / k = q /\ (k * q + r) mod k = r.
Proof.
  intros. split; symmetry; [apply (N.div_unique _ _ _ r) | apply (N.mod_unique _ _ q)]; lia.
Qed.

(** The encoder's digits of a code point built from digits. *)
Lemma encode_seq2 (a r : N) : 2 <= a < 32 -> r < 64 ->
  encode_char (64 * a + r) = [192 + a; 128 + r].
Proof.
  intros. unfold encode_char. ncmp.
  now destruct (div_mod_eval 64 a r) as [-> ->]; [lia|].
Qed.

Lemma encode_seq3 (a m r : N) : a < 16 -> m < 64 -> r < 64 -> (a = 0 -> 32 <= m) ->
  encode_char (4096 * a + 64 * m + r) = [224 + a; 128 + m; 128 + r].
Proof.
  intros. unfold encode_char. ncmp.
  replace (4096 * a + 64 * m + r) with (64 * (64 * a + m) + r) by lia.
  destruct (div_mod_eval 64 (64 * a + m) r) as [-> ->]; [lia|].
  destruct (div_mod_eval 64 a m) as [_ ->]; [lia|].
  replace (64 * (64 * a + m) + r) with (4096 * a + (64 * m + r)) by lia.
  destruct (div_mod_eval 4096 a (64 * m + r)) as [-> _]; [lia|]. reflexivity.
Qed.

Lemma encode_seq4 (a m1 m2 r : N) : a <= 4 -> m1 < 64 -> m2 < 64 -> r < 64 ->
  (a = 0 -> 16 <= m1) -> 262144 * a + 4096 * m1 + 64 * m2 + r < 1114112 ->
  encode_char (262144 * a + 4096 * m1 + 64 * m2 + r)
  = [240 + a; 128 + m1; 128 + m2; 128 + r].
Proof.
  intros. unfold encode_char. ncmp.
  replace (262144 * a + 4096 * m1 + 64 * m2 + r)
    with (64 * (64 * (64 * a + m1) + m2) + r) by lia.
  destruct (div_mod_eval 64 (64 * (64 * a + m1) + m2) r) as [-> ->]; [lia|].
  destruct (div_mod_eval 64 (64 * a + m1) m2) as [_ ->]; [lia|].
  replace (64 * (64 * (64 * a + m1) + m2) + r)
    with (4096 * (64 * a + m1) + (64 * m2 + r)) by lia.
  destruct (div_mod_eval 4096 (64 * a + m1) (64 * m2 + r)) as [-> _]; [lia|].
  destruct (div_mod_eval 64 a m1) as [_ ->]; [lia|].
  replace (4096 * (64 * a + m1) + (64 * m2 + r))
    with (262144 * a + (4096 * m1 + 64 * m2 + r)) by lia.
  destruct (div_mod_eval 262144 a (4096 * m1 + 64 * m2 + r)) as [-> _]; [lia|].
  reflexivity.
Qed.

(** ** What the decoder's tests mean *)

Lemma lead_len_spec (n : N) :
  match lead_len n with
  | 1%nat => n < 128 | 2%nat => 194 <= n < 224 | 3%nat => 224 <= n < 240
  | 4%nat => 240 <= n < 245 | _ => True
  end.
Proof.
  unfold lead_len.
  destruct (N.ltb_spec n 128); [|destruct (N.ltb_spec n 194); [|destruct (N.ltb_spec n 224);
    [|destruct (N.ltb_spec n 240); [|destruct (N.ltb_spec n 245)]]]]; lia.
Qed.

Lemma is_cont_spec (n : N) : is_cont n = true -> 128 <= n <= 191.
Proof. unfold is_cont, in_range. char_bool. lia. Qed.

Lemma second_ok_spec (n0 n1 : N) : second_ok n0 n1 = true ->
  128 <= n1 <= 191 /\ (n0 = 224 -> 160 <= n1) /\ (n0 = 237 -> n1 <= 159) /\
  (n0 = 240 -> 144 <= n1) /\ (n0 = 244 -> n1 <= 143).
Proof.
  unfold second_ok, is_cont, in_range.
  destruct (N.eqb_spec n0 224); [|destruct (N.eqb_spec n0 237);
    [|destruct (N.eqb_spec n0 240); [|destruct (N.eqb_spec n0 244)]]];
    char_bool; lia.
Qed.

Lemma scalar_spec (c : char) :
  scalar c = true <-> c < 1114112 /\ (c < 55296 \/ 57343 < c).
Proof.
  unfold scalar, in_range. rewrite andb_true_iff, negb_true_iff, andb_false_iff,
    N.ltb_lt, !N.leb_gt. tauto.
Qed.

Lemma byte_of_N (b : Byte.byte) (n : N) : n = Byte.to_N b -> byte_of n = b.
Proof. intros ->. apply byte_of_to_N. Qed.

Ltac byte_bounds :=
  repeat match goal with
  | b : Byte.byte |- _ =>
      let n := fresh "n" in let E := fresh "E" in
      pose proof (Byte.to_N_bounded b); remember (Byte.to_N b) as n eqn:E;
      revert E; generalize dependent b; intros ? ? E
  end.

(** ** Decoded sequences are canonical encodings *)

Section Canonical.
Variables b0 b1 b2 b3 : Byte.byte.
#[local] Abbreviation n0 := (Byte.to_N b0).
#[local] Abbreviation n1 := (Byte.to_N b1).
#[local] Abbreviation n2 := (Byte.to_N b2).
#[local] Abbreviation n3 := (Byte.to_N b3).

Lemma canon1 : n0 < 128 ->
  scalar n0 = true /\ map byte_of (encode_char n0) = [b0].
Proof.
  intros. split; [apply scalar_spec; lia|].
  unfold encode_char. ncmp. cbn. f_equal. apply byte_of_to_N.
Qed.

Lemma canon2 : 194 <= n0 < 224 -> 128 <= n1 <= 191 ->
  scalar (val2 n0 n1) = true /\ map byte_of (encode_char (val2 n0 n1)) = [b0; b1].
Proof.
  intros. unfold val2.
  replace ((n0 - 192) * 64 + (n1 - 128)) with (64 * (n0 - 192) + (n1 - 128)) by lia.
  rewrite encode_seq2 by lia. split; [apply scalar_spec; lia|].
  cbn [map]. f_equal; [|f_equal]; apply byte_of_N; lia.
Qed.

Lemma canon3 : 224 <= n0 < 240 -> 128 <= n1 <= 191 -> 128 <= n2 <= 191 ->
  (n0 = 224 -> 160 <= n1) -> (n0 = 237 -> n1 <= 159) ->
  scalar (val3 n0 n1 n2) = true /\
  map byte_of (encode_char (val3 n0 n1 n2)) = [b0; b1; b2].
Proof.
  intros. unfold val3.
  replace ((n0 - 224) * 4096 + (n1 - 128) * 64 + (n2 - 128))
    with (4096 * (n0 - 224) + 64 * (n1 - 128) + (n2 - 128)) by lia.
  rewrite encode_seq3 by lia. split; [apply scalar_spec; lia|].
  cbn [map]. repeat f_equal; apply byte_of_N; lia.
Qed.

Lemma canon4 : 240 <= n0 < 245 -> 128 <= n1 <= 191 -> 128 <= n2 <= 191 ->
  128 <= n3 <= 191 -> (n0 = 240 -> 144 <= n1) -> (n0 = 244 -> n1 <= 143) ->
  scalar (val4 n0 n1 n2 n3) = true /\
  map byte_of (encode_char (val4 n0 n1 n2 n3)) = [b0; b1; b2; b3].
Proof.
  intros. unfold val4.
  replace ((n0 - 240) * 262144 + (n1 - 128) * 4096 + (n2 - 128) * 64 + (n3 - 128))
    with (262144 * (n0 - 240) + 4096 * (n1 - 128) + 64 * (n2 - 128) + (n3 - 128)) by lia.
  rewrite encode_seq4 by lia. split; [apply scalar_spec; lia|].
  cbn [map]. repeat f_equal; apply byte_of_N; lia.
Qed.
End Canonical.

Lemma utf8_encode_cons (c : char) (cs : pystr) :
  utf8_encode (c :: cs) = map byte_of (encode_char c) ++ utf8_encode cs.
Proof. reflexivity. Qed.

(** Invert one step of the decoder: the sequence it read is a canonical
    encoding of a scalar value, and the rest decoded to the tail. *)
Ltac decode_step IH :=
  match goal with
  | H : (if ?b then _ else _) = Ok _ |- _ =>
      let E := fresh "E" in destruct b eqn:E; [|discriminate H]
  | H : bind (utf8_decode ?r) _ = Ok _ |- _ =>
      let E := fresh "E" in destruct (utf8_decode r) as [l|] eqn:E; [|discriminate H];
      cbn in H; injection H as <-;
      destruct (IH r ltac:(cbn; lia) l E) as [IHs IHe]
  end.

(** ** Round trips *)

Lemma utf8_decode_encode_eqn (cs : pystr) :
  forallb scalar cs = true -> utf8_decode (utf8_encode cs) = Ok cs.
Proof.
  induction cs as [|c cs IH]; [reflexivity|]. cbn [forallb]. intros H.
  apply andb_prop in H as [Hc Hs].
  rewrite utf8_encode_cons, decode_encode_char, IH by assumption. reflexivity.
Qed.

(** C13: decoding the UTF-8 encoding of a string of scalar values gives
    the string back. *)
Theorem utf8_decode_encode (cs : pystr) :
  forallb scalar cs = true -> utf8_decode (utf8_encode cs) = Ok cs.
Proof. intros; apply utf8_decode_encode_eqn; assumption. Qed.

Lemma utf8_decode_inv (bs : list Byte.byte) (cs : pystr) :
  utf8_decode bs = Ok cs -> forallb scalar cs = true /\ utf8_encode cs = bs.
Proof.
  revert cs. induction bs as [bs IH] using list_length_ind. intros cs H.
  destruct bs as [|b0 r0]; [injection H as <-; auto|].
  cbn [utf8_decode] in H. pose proof (lead_len_spec (Byte.to_N b0)) as L.
  destruct (lead_len (Byte.to_N b0)) as [|[|[|[|[|k]]]]]; try discriminate H.
  - repeat decode_step IH. destruct (canon1 b0 L) as [S1 E1].
    cbn [forallb]. rewrite utf8_encode_cons, S1, E1, IHs, IHe. auto.
  - destruct r0 as [|b1 r1]; [discriminate H|]. repeat decode_step IH.
    destruct (second_ok_spec _ _ E) as [? _].
    destruct (canon2 b0 b1 L ltac:(assumption)) as [S1 E1].
    cbn [forallb]. rewrite utf8_encode_cons, S1, E1, IHs, IHe. auto.
  - destruct r0 as [|b1 [|b2 r2]]; try discriminate H. repeat decode_step IH.
    apply andb_prop in E as [E E'].
    destruct (second_ok_spec _ _ E) as (? & ? & ? & _). apply is_cont_spec in E'.
    destruct (canon3 b0 b1 b2) as [S1 E1]; try assumption.
    cbn [forallb]. rewrite utf8_encode_cons, S1, E1, IHs, IHe. auto.
  - destruct r0 as [|b1 [|b2 [|b3 r3]]]; try discriminate H. repeat decode_step IH.
    apply andb_prop in E as [E E'']. apply andb_prop in E as [E E'].
    destruct (second_ok_spec _ _ E) as (? & _ & _ & ? & ?).
    apply is_cont_spec in E'. apply is_cont_spec in E''.
    destruct (canon4 b0 b1 b2 b3) as [S1 E1]; try assumption.
    cbn [forallb]. rewrite utf8_encode_cons, S1, E1, IHs, IHe. auto.
Qed.

(** C12: whatever the decoder accepts is a string of scalar values whose
    encoding is exactly the input: the decoder admits no second encoding. *)
Theorem utf8_decode_canonical (bs : list Byte.byte) (cs : pystr) :
  utf8_decode bs = Ok cs -> forallb scalar cs = true /\ utf8_encode cs = bs.
Proof. intros; apply utf8_decode_inv; assumption. Qed.

(** ** Lengths *)

Lemma length_encode_char (c : char) : (1 <= length (encode_char c) <= 4)%nat.
Proof.
  unfold encode_char.
  destruct (c <? 128); [|destruct (c <? 2048); [|destruct (c <? 65536)]]; cbn; lia.
Qed.

Lemma length_utf8_encode (cs : pystr) :
  (length cs <= length (utf8_encode cs) <= 4 * length cs)%nat.
Proof.
  induction cs as [|c cs IH]; [cbn; lia|].
  rewrite utf8_encode_cons, length_app, length_map. cbn [length].
  pose proof (length_encode_char c). lia.
Qed.

(** C19: The [str] that [bytes.decode('utf-8')] returns has at most one
    character per byte and at least one per four bytes. *)
Theorem utf8_decode_length (bs : list Byte.byte) (cs : pystr) :
  utf8_decode bs = Ok cs -> (length cs <= length bs <= 4 * length cs)%nat.
Proof.
  intros H. destruct (utf8_decode_inv bs cs H) as [_ <-]. apply length_utf8_encode.
Qed.

(** ** Strictness *)

(** The decoder rejects every byte that cannot start a sequence (0x80-0xC1
    and 0xF5-0xFF), overlong three- and four-byte forms (0xE0 0x80-0x9F,
    0xF0 0x80-0x8F), encoded surrogates (0xED 0xA0-0xBF) and sequences
    above U+10FFFF (0xF4 0x90-0xBF). *)
Theorem utf8_strict (b0 b1 b2 b3 : Byte.byte) (rest : list Byte.byte) :
  (lead_len (Byte.to_N b0) = 0%nat -> utf8_decode (b0 :: rest) = Raise UnicodeDecodeError) /\
  (Byte.to_N b1 < 160 ->
     utf8_decode (Byte.xe0 :: b1 :: b2 :: rest) = Raise UnicodeDecodeError) /\
  (160 <= Byte.to_N b1 ->
     utf8_decode (Byte.xed :: b1 :: b2 :: rest) = Raise UnicodeDecodeError) /\
  (Byte.to_N b1 < 144 ->
     utf8_decode (Byte.xf0 :: b1 :: b2 :: b3 :: rest) = Raise UnicodeDecodeError) /\
  (144 <= Byte.to_N b1 ->
     utf8_decode (Byte.xf4 :: b1 :: b2 :: b3 :: rest) = Raise UnicodeDecodeError).
Proof.
  repeat split; intros H; cbn [utf8_decode]; [now rewrite H|..];
    try change (Byte.to_N Byte.xe0) with 224; try change (Byte.to_N Byte.xed) with 237;
    try change (Byte.to_N Byte.xf0) with 240; try change (Byte.to_N Byte.xf4) with 244;
    unfold lead_len, second_ok, in_range; ncmp; reflexivity.
Qed.

Lemma truncated_char (c : char) (k : nat) :
  scalar c = true -> 128 <= c -> (0 < k < length (encode_char c))%nat ->
  utf8_decode (firstn k (map byte_of (encode_char c))) = Raise UnicodeDecodeError.
Proof.
  rewrite scalar_spec. intros [H1 H2] H3 Hk.
  unfold encode_char in *. digits_of c.
  destruct (N.ltb_spec c 128); [lia|]; destruct (N.ltb_spec c 2048);
    [|destruct (N.ltb_spec c 65536)]; cbn [length] in Hk;
    (destruct k as [|[|[|[|k]]]]; [lia| | | |]; try lia);
    cbn [map firstn utf8_decode]; rewrite to_N_byte_of by lia;
    unfold lead_len; ncmp; reflexivity.
Qed.

(** The decoder reads the encoding of a valid text and goes on with what
    follows it. *)
Lemma utf8_decode_encode_app (s : pystr) (rest : list Byte.byte) :
  forallb scalar s = true ->
  utf8_decode (utf8_encode s ++ rest) = (cs <- utf8_decode rest ;; Ok (s ++ cs)).
Proof.
  induction s as [|c s IH]; intros H.
  - cbn [utf8_encode flat_map app]. destruct (utf8_decode rest); reflexivity.
  - cbn [forallb] in H. apply andb_prop in H as [Hc Hs].
    rewrite utf8_encode_cons, <- app_assoc, decode_encode_char, IH by assumption.
    destruct (utf8_decode rest); reflexivity.
Qed.

(** C28: A file cut inside a character does not decode: after any valid
    text, a proper prefix of the encoding of a non-ASCII character raises
    [UnicodeDecodeError], so none of the file is read. *)
Theorem utf8_truncated (s : pystr) (c : char) (k : nat) :
  forallb scalar s = true -> scalar c = true -> 128 <= c ->
  (0 < k < length (encode_char c))%nat ->
  utf8_decode (utf8_encode s ++ firstn k (map byte_of (encode_char c))) = Raise UnicodeDecodeError.
Proof.
  intros Hs Hc Hc' Hk. rewrite utf8_decode_encode_app, truncated_char by assumption.
  reflexivity.
Qed.

(** ** Witnesses *)

(** "c\u00e9\u20ac": one, two and three bytes. *)
Definition sample_chars : pystr := [99; 233; 8364].

Lemma utf8_decode_encode_witness :
  forallb scalar [233; 8364; 128512] = true /\
  utf8_decode (utf8_encode [233; 8364; 128512]) = Ok [233; 8364; 128512].
Proof.
  assert (H : forallb scalar [233; 8364; 128512] = true) by reflexivity.
  exact (conj H (utf8_decode_encode _ H)).
Defined.

Lemma utf8_decode_canonical_witness :
  utf8_decode [Byte.x63; Byte.xc3; Byte.xa9] = Ok [99; 233] /\
  forallb scalar [99; 233] = true /\ utf8_encode [99; 233] = [Byte.x63; Byte.xc3; Byte.xa9].
Proof.
  assert (H : utf8_decode [Byte.x63; Byte.xc3; Byte.xa9] = Ok [99; 233]) by reflexivity.
  exact (conj H (utf8_decode_canonical _ _ H)).
Defined.

Lemma utf8_strict_witness :
  lead_len (Byte.to_N Byte.xc0) = 0%nat /\ Byte.to_N Byte.x9f < 160 /\
  160 <= Byte.to_N Byte.xa0 /\ Byte.to_N Byte.x8f < 144 /\ 144 <= Byte.to_N Byte.x90 /\
  utf8_decode [Byte.xc0; Byte.x80] = Raise UnicodeDecodeError /\
  utf8_decode [Byte.xe0; Byte.x9f; Byte.xbf] = Raise UnicodeDecodeError /\
  utf8_decode [Byte.xed; Byte.xa0; Byte.x80] = Raise UnicodeDecodeError /\
  utf8_decode [Byte.xf0; Byte.x8f; Byte.xbf; Byte.xbf] = Raise UnicodeDecodeError /\
  utf8_decode [Byte.xf4; Byte.x90; Byte.x80; Byte.x80] = Raise UnicodeDecodeError.
Proof.
  assert (H0 : lead_len (Byte.to_N Byte.xc0) = 0%nat) by reflexivity.
  assert (H1 : Byte.to_N Byte.x9f < 160) by (vm_compute; reflexivity).
  assert (H2 : 160 <= Byte.to_N Byte.xa0) by (vm_compute; discriminate).
  assert (H3 : Byte.to_N Byte.x8f < 144) by (vm_compute; reflexivity).
  assert (H4 : 144 <= Byte.to_N Byte.x90) by (vm_compute; discriminate).
  destruct (utf8_strict Byte.xc0 Byte.x9f Byte.xbf Byte.xbf [Byte.x80]) as (S0 & _).
  destruct (utf8_strict Byte.xc0 Byte.x9f Byte.xbf Byte.xbf []) as (_ & S1 & _).
  destruct (utf8_strict Byte.xc0 Byte.xa0 Byte.x80 Byte.x80 []) as (_ & _ & S2 & _).
  destruct (utf8_strict Byte.xc0 Byte.x8f Byte.xbf Byte.xbf []) as (_ & _ & _ & S3 & _).
  destruct (utf8_strict Byte.xc0 Byte.x90 Byte.x80 Byte.x80 []) as (_ & _ & _ & _ & S4).
  repeat split; auto.
Defined.

Lemma utf8_truncated_witness :
  forallb scalar sample_chars = true /\ scalar 8364 = true /\ 128 <= 8364 /\
  (0 < 2 < length (encode_char 8364))%nat /\
  utf8_decode (utf8_encode sample_chars ++ firstn 2 (map byte_of (encode_char 8364)))
  = Raise UnicodeDecodeError.
Proof.
  assert (H : forallb scalar sample_chars = true) by reflexivity.
  assert (H0 : scalar 8364 = true) by reflexivity.
  assert (H1 : 128 <= 8364) by lia.
  assert (H2 : (0 < 2 < length (encode_char 8364))%nat) by (vm_compute; lia).
  exact (conj H (conj H0 (conj H1 (conj H2 (utf8_truncated _ _ _ H H0 H1 H2))))).
Defined.

Lemma utf8_decode_length_witness :
  utf8_decode (utf8_encode sample_chars) = Ok sample_chars /\
  (length sample_chars <= length (utf8_encode sample_chars) <= 4 * length sample_chars)%nat.
Proof.
  assert (H : utf8_decode (utf8_encode sample_chars) = Ok sample_chars)
    by (vm_compute; reflexivity).
  exact (conj H (utf8_decode_length _ _ H)).
Defined.
