(* ===== verification/Regex.v ===== *)
(** * [re.sub] with the four patterns of [clean_text]

    The patterns [http\S+], [@\w+], [#\w+] and [[^a-zA-Z\s]] as a small
    regular-expression syntax with its language ([in_lang]); the matchers
    that run them at the head of a string, in the greedy way of CPython's
    [sre] engine; and [re.sub(pattern, '', s)], the left-to-right scan that
    tries the pattern at each position, deletes each match and resumes
    after it.  The scan recurses on what is left after a match, so it is
    written with fuel; [re_sub_step] shows the fuel is never short. *)

From Stdlib Require Import String List NArith Lia Bool.
From S2P Require Import Prelude PyChar.
Import ListNotations.
Open Scope N_scope.

(** ** Syntax and language of the patterns *)

Inductive regex : Type :=
  | RLit (c : char)               (** a literal character *)
  | RClass (p : char -> bool)     (** a one-character class, [\S], [\w], [[...]] *)
  | RSeq (r1 r2 : regex)          (** concatenation *)
  | RPlus (r : regex).            (** one or more, [r+] *)

Inductive in_lang : regex -> pystr -> Prop :=
  | L_lit c : in_lang (RLit c) [c]
  | L_class p c : p c = true -> in_lang (RClass p) [c]
  | L_seq r1 r2 x1 x2 :
      in_lang r1 x1 -> in_lang r2 x2 -> in_lang (RSeq r1 r2) (x1 ++ x2)
  | L_plus_one r x : in_lang r x -> in_lang (RPlus r) x
  | L_plus_more r x1 x2 :
      in_lang r x1 -> in_lang (RPlus r) x2 -> in_lang (RPlus r) (x1 ++ x2).

(** A literal word followed by a pattern. *)
Fixpoint lits (w : pystr) (r : regex) : regex :=
  match w with
  | [] => r
  | c :: w' => RSeq (RLit c) (lits w' r)
  end.

Section Patterns.
Context {U : UnicodeDB}.

(** [r"http\S+"] *)
Definition pat_url : regex := lits (py "http") (RPlus (RClass (fun c => negb (is_space c)))).
(** [r"@\w+"] *)
Definition pat_mention : regex := lits (py "@") (RPlus (RClass is_word)).
(** [r"#\w+"] *)
Definition pat_hashtag : regex := lits (py "#") (RPlus (RClass is_word)).
(** [r"[^a-zA-Z\s]"] *)
Definition pat_nonletter : regex :=
  RClass (fun c => negb (is_ascii_letter c || is_space c)).

End Patterns.

(** ** Matchers

    A matcher tries a pattern at the head of a string and returns the text
    after the match. *)

Definition matcher := pystr -> option pystr.

(** [p+] at the end of a pattern: [sre] repeats greedily and, with nothing
    after it in the pattern, keeps the longest run. *)
Definition match_plus (p : char -> bool) : matcher := fun s =>
  match s with
  | c :: t => if p c then Some (drop_while p t) else None
  | [] => None
  end.

(** A literal word, then the matcher [m]. *)
Fixpoint match_lits (w : pystr) (m : matcher) : matcher := fun s =>
  match w with
  | [] => m s
  | c :: w' =>
      match s with
      | d :: t => if c =? d then match_lits w' m t else None
      | [] => None
      end
  end.

(** A one-character class. *)
Definition match_class (p : char -> bool) : matcher := fun s =>
  match s with
  | c :: t => if p c then Some t else None
  | [] => None
  end.

(** A matcher that removes a non-empty prefix: none of the four patterns
    matches the empty string, and a match is a prefix of the input. *)
Class Consuming (m : matcher) :=
  consuming : forall s rest, m s = Some rest -> exists x, x <> [] /\ s = x ++ rest.

(** ** [re.sub(pattern, '', s)] *)

Fixpoint re_sub_fuel (fuel : nat) (m : matcher) (s : pystr) : pystr :=
  match fuel with
  | O => s
  | S f =>
      match s with
      | [] => []
      | c :: t =>
          match m s with
          | Some rest => re_sub_fuel f m rest
          | None => c :: re_sub_fuel f m t
          end
      end
  end.

Definition re_sub (m : matcher) (s : pystr) : pystr := re_sub_fuel (length s) m s.

Section Matchers.
Context {U : UnicodeDB}.

Definition m_url : matcher := match_lits (py "http") (match_plus (fun c => negb (is_space c))).
Definition m_mention : matcher := match_lits (py "@") (match_plus is_word).
Definition m_hashtag : matcher := match_lits (py "#") (match_plus is_word).
Definition m_nonletter : matcher :=
  match_class (fun c => negb (is_ascii_letter c || is_space c)).

End Matchers.

(** The character after a maximal run of [p] is not in [p]. *)
Definition head_not (p : char -> bool) (rest : pystr) : Prop :=
  match rest with d :: _ => p d = false | [] => True end.

(** [x] is the longest prefix of [s] in the language of [r], and [rest] is
    what follows it: what [sre] returns for a greedy pattern that ends in
    a repetition. *)
Definition longest_match (r : regex) (s rest : pystr) : Prop :=
  exists x, s = x ++ rest /\ in_lang r x /\
    forall x' r', s = x' ++ r' -> in_lang r x' -> (length x' <= length x)%nat.

(** Whether [m] matches at no position of [s]. *)
Fixpoint no_match (m : matcher) (s : pystr) : bool :=
  match s with
  | [] => true
  | _ :: t => match m s with Some _ => false | None => no_match m t end
  end.

(** ** What [re.sub] means

    The reference semantics of [re.sub(pattern, '', s)] for a pattern that
    matches no empty string: scanning from the left, at each position
    either the longest prefix in the pattern's language is deleted, or,
    when no prefix is in the language, the character is kept. *)
Inductive sub_rel (r : regex) : pystr -> pystr -> Prop :=
  | SR_nil : sub_rel r [] []
  | SR_match x t out :
      x <> [] -> in_lang r x ->
      (forall x' t', x ++ t = x' ++ t' -> in_lang r x' -> (length x' <= length x)%nat) ->
      sub_rel r t out -> sub_rel r (x ++ t) out
  | SR_keep c t out :
      (forall x t', c :: t = x ++ t' -> ~ in_lang r x) ->
      sub_rel r t out -> sub_rel r (c :: t) (c :: out).

(** A matcher implements a pattern when it returns what follows the
    longest prefix in the pattern's language, and fails only when no
    prefix is in it. *)
Class Implements (m : matcher) (r : regex) := {
  impl_some : forall s rest, m s = Some rest -> longest_match r s rest;
  impl_none : forall s, m s = None -> forall x t, s = x ++ t -> ~ in_lang r x
}.

(** * Properties *)

(** ** Language of the patterns *)

Lemma in_lang_lits (w : pystr) (r : regex) (x : pystr) :
  in_lang (lits w r) x <-> exists y, x = w ++ y /\ in_lang r y.
Proof.
  revert x. induction w as [|c w IH]; intros x; simpl.
  - split; [intros H; exists x; auto | intros [y [-> H]]; exact H].
  - split.
    + intros H. inversion H as [| |r1 r2 x1 x2 H1 H2| |]; subst.
      inversion H1; subst. apply IH in H2 as [y [-> Hy]]. exists y; auto.
    + intros [y [-> Hy]]. apply (L_seq _ _ [c] (w ++ y)); [constructor|].
      apply IH. eauto.
Qed.

Lemma in_lang_plus_class (p : char -> bool) (x : pystr) :
  in_lang (RPlus (RClass p)) x <-> x <> [] /\ forallb p x = true.
Proof.
  split.
  - intros H. remember (RPlus (RClass p)) as r eqn:Er.
    induction H; inversion Er; subst.
    + inversion H; subst. simpl. rewrite H1. split; [discriminate|reflexivity].
    + inversion H; subst. simpl. destruct IHin_lang2 as [_ Hx2]; auto.
      rewrite H2, Hx2. split; [discriminate|reflexivity].
  - intros [Hne Hp]. induction x as [|c x IH]; [congruence|].
    simpl in Hp. apply andb_prop in Hp as [Hc Hx].
    destruct x as [|d x].
    + apply L_plus_one. constructor. exact Hc.
    + apply (L_plus_more _ [c] (d :: x)); [constructor; exact Hc|].
      apply IH; [discriminate|exact Hx].
Qed.

(** ** The matchers *)

Lemma head_not_drop_while (p : char -> bool) (rest : pystr) :
  head_not p rest -> drop_while p rest = rest.
Proof. destruct rest; simpl; [auto|]. intros ->. reflexivity. Qed.

Lemma match_plus_spec (p : char -> bool) (s rest : pystr) :
  match_plus p s = Some rest <->
  exists m, s = m ++ rest /\ m <> [] /\ forallb p m = true /\ head_not p rest.
Proof.
  split.
  - destruct s as [|c t]; simpl; [discriminate|].
    destruct (p c) eqn:Ec; [|discriminate]. intros H; injection H as <-.
    destruct (drop_while_split p t) as [pre [Ht Hpre]].
    exists (c :: pre). simpl. rewrite Ec, Hpre, <- Ht.
    repeat split; [discriminate|]. apply (drop_while_head p t).
  - intros [[|c m] [-> [Hne [Hp Hh]]]]; [congruence|].
    simpl in *. apply andb_prop in Hp as [-> Hm].
    rewrite drop_while_app, Hm, head_not_drop_while by exact Hh. reflexivity.
Qed.

Lemma match_lits_app (w u : pystr) (m : matcher) :
  match_lits w m (w ++ u) = m u.
Proof. induction w; simpl; [reflexivity|]. rewrite N.eqb_refl. apply IHw. Qed.

Lemma match_lits_spec (w : pystr) (m : matcher) (s rest : pystr) :
  match_lits w m s = Some rest <-> exists u, s = w ++ u /\ m u = Some rest.
Proof.
  revert s. induction w as [|c w IH]; intros s; simpl.
  - split; [intros H; exists s; auto | intros [u [-> H]]; exact H].
  - destruct s as [|d t].
    + split; [discriminate | intros [u [H _]]; discriminate].
    + destruct (N.eqb_spec c d) as [<-|Hne].
      * rewrite IH. split; intros [u [Hu Hm]]; exists u; split; auto.
        -- rewrite Hu. reflexivity.
        -- injection Hu; auto.
      * split; [discriminate|]. intros [u [Hu _]]. injection Hu; congruence.
Qed.

(** A maximal run of [p] is at least as long as any run of [p] it
    shares a start with. *)
Lemma run_longest (p : char -> bool) (m rest m' r' : pystr) :
  forallb p m = true -> head_not p rest -> m ++ rest = m' ++ r' ->
  forallb p m' = true -> (length m' <= length m)%nat.
Proof.
  revert m'. induction m as [|c m IH]; intros m' Hm Hh E Hm'; simpl in *.
  - destruct m' as [|d m'']; simpl; [lia|].
    subst rest. simpl in *. apply andb_prop in Hm' as [Hd _]. congruence.
  - destruct m' as [|d m'']; simpl; [lia|].
    injection E as <- E. simpl in *. split_bool. apply le_n_S. eauto.
Qed.

(** A literal word followed by [p+] is matched at the head of [s] exactly
    when [s] has a prefix in the pattern's language, and the match is the
    longest such prefix. *)
Theorem match_lits_plus_correct (w : pystr) (p : char -> bool) (s : pystr) :
  (forall rest, match_lits w (match_plus p) s = Some rest ->
     longest_match (lits w (RPlus (RClass p))) s rest) /\
  (match_lits w (match_plus p) s = None ->
     forall x r', s = x ++ r' -> ~ in_lang (lits w (RPlus (RClass p))) x).
Proof.
  split.
  - intros rest H. apply match_lits_spec in H as [u [-> Hu]].
    apply match_plus_spec in Hu as [m [-> [Hne [Hp Hh]]]].
    exists (w ++ m). rewrite <- app_assoc. split; [reflexivity|]. split.
    + apply in_lang_lits. exists m. split; [reflexivity|].
      apply in_lang_plus_class. auto.
    + intros x' r' E Hx'. apply in_lang_lits in Hx' as [y [-> Hy]].
      apply in_lang_plus_class in Hy as [_ Hy].
      rewrite <- app_assoc in E. apply app_inv_head in E.
      rewrite !length_app. pose proof (run_longest p m rest y r' Hp Hh E Hy). lia.
  - intros H x r' -> Hx. apply in_lang_lits in Hx as [y [-> Hy]].
    apply in_lang_plus_class in Hy as [Hne Hy].
    destruct y as [|c y]; [congruence|]. simpl in Hy. apply andb_prop in Hy as [Hc _].
    rewrite <- app_assoc, match_lits_app in H. simpl in H. rewrite Hc in H.
    discriminate.
Qed.

(** ** The matchers implement the patterns *)

#[export] Instance match_lits_plus_implements (w : pystr) (p : char -> bool) :
  Implements (match_lits w (match_plus p)) (lits w (RPlus (RClass p))).
Proof.
  constructor; intros s; [apply (proj1 (match_lits_plus_correct w p s))
                         | apply (proj2 (match_lits_plus_correct w p s))].
Qed.

Lemma in_lang_class (p : char -> bool) (x : pystr) :
  in_lang (RClass p) x <-> exists c, x = [c] /\ p c = true.
Proof.
  split; [intros H; inversion H; subst; eauto | intros [c [-> Hc]]; constructor; exact Hc].
Qed.

#[export] Instance match_class_implements (p : char -> bool) :
  Implements (match_class p) (RClass p).
Proof.
  constructor.
  - intros [|c t] rest; simpl; [discriminate|]. destruct (p c) eqn:Hc; [|discriminate].
    intros H; injection H as <-. exists [c]. split; [reflexivity|].
    split; [constructor; exact Hc|]. intros x' r' _ Hx.
    apply in_lang_class in Hx as [d [-> _]]. simpl. lia.
  - intros [|c t] H x u E Hx; apply in_lang_class in Hx as [d [-> Hd]];
      [discriminate E|]. simpl in H, E. injection E as <- _. rewrite Hd in H. discriminate.
Qed.

(** ** The four matchers consume input *)

#[export] Instance match_plus_consuming p : Consuming (match_plus p).
Proof.
  intros s rest H. apply match_plus_spec in H as [x [-> [Hx _]]]. eauto.
Qed.

#[export] Instance match_class_consuming p : Consuming (match_class p).
Proof.
  intros [|c t] rest; simpl; [discriminate|]. destruct (p c); [|discriminate].
  intros H; injection H as <-. exists [c]. split; [discriminate|reflexivity].
Qed.

#[export] Instance match_lits_consuming w m `{Consuming m} :
  Consuming (match_lits w m).
Proof.
  intros s rest H0. apply match_lits_spec in H0 as [u [-> Hu]].
  apply consuming in Hu as [x [Hx ->]]. exists (w ++ x).
  rewrite app_assoc. split; [destruct w, x; simpl; congruence|reflexivity].
Qed.

Lemma consuming_length {m : matcher} `{Consuming m} (s rest : pystr) :
  m s = Some rest -> (length rest < length s)%nat.
Proof.
  intros E. apply consuming in E as [x [Hx ->]]. rewrite length_app.
  destruct x; [congruence|simpl; lia].
Qed.

(** ** The scan of [re.sub] *)

Section ReSub.
Context (m : matcher) `{Consuming m}.

Lemma re_sub_fuel_stable (f1 f2 : nat) (s : pystr) :
  (length s <= f1)%nat -> (length s <= f2)%nat ->
  re_sub_fuel f1 m s = re_sub_fuel f2 m s.
Proof.
  revert f2 s. induction f1 as [|f1 IH]; intros f2 s H1 H2.
  - destruct s; [destruct f2; reflexivity | simpl in H1; lia].
  - destruct f2 as [|f2]; [destruct s; [reflexivity | simpl in H2; lia]|].
    destruct s as [|c t]; [reflexivity|]. simpl.
    destruct (m (c :: t)) as [rest|] eqn:E.
    + apply consuming_length in E. simpl in *. apply IH; lia.
    + f_equal. simpl in *. apply IH; lia.
Qed.

Lemma re_sub_step (c : char) (t : pystr) :
  re_sub m (c :: t) =
  match m (c :: t) with
  | Some rest => re_sub m rest
  | None => c :: re_sub m t
  end.
Proof.
  unfold re_sub at 1. simpl. destruct (m (c :: t)) as [rest|] eqn:E.
  - apply consuming_length in E. simpl in E. apply re_sub_fuel_stable; lia.
  - reflexivity.
Qed.

Lemma re_sub_nil : re_sub m [] = [].
Proof. reflexivity. Qed.

Lemma re_sub_length (s : pystr) : (length (re_sub m s) <= length s)%nat.
Proof.
  induction s as [s IH] using list_length_ind.
  destruct s as [|c t]; [simpl; lia|]. rewrite re_sub_step.
  destruct (m (c :: t)) as [rest|] eqn:E.
  - pose proof (consuming_length _ _ E). specialize (IH rest H0). lia.
  - simpl. specialize (IH t ltac:(simpl; lia)). lia.
Qed.

Lemma re_sub_shrinks (s : pystr) :
  no_match m s = false -> (length (re_sub m s) < length s)%nat.
Proof.
  induction s as [|c t IH]; simpl; [discriminate|].
  rewrite re_sub_step. destruct (m (c :: t)) as [rest|] eqn:E.
  - intros _. pose proof (consuming_length _ _ E).
    pose proof (re_sub_length rest). simpl in *. lia.
  - intros Hn. simpl. specialize (IH Hn). lia.
Qed.

Lemma re_sub_id_no_match (s : pystr) : re_sub m s = s <-> no_match m s = true.
Proof.
  split.
  - intros E. destruct (no_match m s) eqn:N; [reflexivity|].
    apply re_sub_shrinks in N. rewrite E in N. lia.
  - induction s as [|c t IH]; [reflexivity|]. simpl. rewrite re_sub_step.
    destruct (m (c :: t)); [discriminate|]. intros Hn. rewrite IH; auto.
Qed.

(** [re.sub] leaves [s] alone exactly when the pattern occurs nowhere. *)
Lemma re_sub_id_iff (s : pystr) : re_sub m s = s <-> no_match m s = true.
Proof. intros; apply re_sub_id_no_match; assumption. Qed.

End ReSub.

(** ** The scan implements the reference semantics *)

Lemma app_same_length {A} (x t x2 t2 : list A) :
  x ++ t = x2 ++ t2 -> length x = length x2 -> x = x2 /\ t = t2.
Proof.
  revert x2. induction x as [|a x IH]; intros [|b x2] E L; simpl in *;
    try discriminate L; [auto|]. injection E as -> E. injection L as L.
  destruct (IH x2 E L) as [-> ->]. auto.
Qed.

Section Semantics.
Context (m : matcher) (r : regex) `{Implements m r} `{Consuming m}.

Lemma re_sub_sub_rel (s : pystr) : sub_rel r s (re_sub m s).
Proof.
  induction s as [s IH] using list_length_ind.
  destruct s as [|c t]; [constructor|]. rewrite (re_sub_step m).
  destruct (m (c :: t)) as [rest|] eqn:E.
  - pose proof (consuming_length _ _ E) as Hl.
    destruct (impl_some _ _ E) as [x [Ex [Hx Hlong]]].
    apply consuming in E as [x0 [Hx0 Ex0]].
    assert (x = x0) as <- by (rewrite Ex in Ex0; apply app_inv_tail in Ex0; exact Ex0).
    rewrite Ex. apply SR_match; [exact Hx0 | exact Hx | rewrite <- Ex; exact Hlong | apply IH, Hl].
  - apply SR_keep; [exact (impl_none _ E) | apply IH; simpl; lia].
Qed.

Lemma sub_rel_inv (s o : pystr) : sub_rel r s o ->
  (s = [] /\ o = []) \/
  (exists x t, s = x ++ t /\ x <> [] /\ in_lang r x /\
     (forall x' t', x ++ t = x' ++ t' -> in_lang r x' -> (length x' <= length x)%nat) /\
     sub_rel r t o) \/
  (exists c t o', s = c :: t /\ (forall x t', c :: t = x ++ t' -> ~ in_lang r x) /\
     sub_rel r t o' /\ o = c :: o').
Proof. intros H1. inversion H1; subst; [left | right; left | right; right]; eauto 10. Qed.

Lemma sub_rel_det (s o1 o2 : pystr) : sub_rel r s o1 -> sub_rel r s o2 -> o1 = o2.
Proof.
  intros H1. revert o2.
  induction H1 as [|x t out Hne Hx Hlong H1 IH|c t out Hno H1 IH]; intros o2 H2;
    apply sub_rel_inv in H2
      as [[E ->] | [(x2 & t2 & E & Hne2 & Hx2 & Hlong2 & H2) | (c2 & t2 & o' & E & Hno2 & H2 & ->)]].
  - reflexivity.
  - symmetry in E. apply app_eq_nil in E as [-> _]. congruence.
  - discriminate E.
  - apply app_eq_nil in E as [-> _]. congruence.
  - pose proof (Hlong x2 t2 E Hx2). pose proof (Hlong2 x t (eq_sym E) Hx).
    destruct (app_same_length x t x2 t2 E) as [<- <-]; [lia|]. apply IH, H2.
  - exfalso. exact (Hno2 x t (eq_sym E) Hx).
  - discriminate E.
  - exfalso. exact (Hno x2 t2 E Hx2).
  - injection E as <- <-. f_equal. apply IH, H2.
Qed.

Lemma re_sub_iff (s o : pystr) : re_sub m s = o <-> sub_rel r s o.
Proof.
  split; [intros <-; apply re_sub_sub_rel | intros Ho; exact (sub_rel_det _ _ _ (re_sub_sub_rel s) Ho)].
Qed.
End Semantics.

(** C9: [re.sub(p, '', s)] with each of the four patterns of [clean_text]
    is the leftmost-longest deletion of the pattern's language: the scan
    of [re_sub] computes exactly the outputs the reference semantics
    [sub_rel] allows, and there is one. *)
Theorem re_sub_patterns_spec {U : UnicodeDB} (s o : pystr) :
  (re_sub m_url s = o <-> sub_rel pat_url s o) /\
  (re_sub m_mention s = o <-> sub_rel pat_mention s o) /\
  (re_sub m_hashtag s = o <-> sub_rel pat_hashtag s o) /\
  (re_sub m_nonletter s = o <-> sub_rel pat_nonletter s o).
Proof. repeat split; apply re_sub_iff; typeclasses eauto. Qed.

(** Deleting the matches of a one-character class is a filter: the scan
    of [re.sub(r"[...]", '', s)] keeps the characters outside the class. *)
Theorem re_sub_class (p : char -> bool) (s : pystr) :
  re_sub (match_class p) s = filter (fun c => negb (p c)) s.
Proof.
  induction s as [|c t IH]; [reflexivity|].
  rewrite re_sub_step by typeclasses eauto. simpl.
  destruct (p c); simpl; rewrite IH; reflexivity.
Qed.

#[export] Hint Rewrite re_sub_class : pyrw.

(** ** What the scan keeps *)

(** [re.sub] with an empty replacement only deletes: a property of every
    character of the input holds of every character of the output. *)
Lemma re_sub_forallb (m : matcher) `{Consuming m} (q : char -> bool) (s : pystr) :
  forallb q s = true -> forallb q (re_sub m s) = true.
Proof.
  induction s as [s IH] using list_length_ind. intros Hs.
  destruct s as [|c t]; [reflexivity|]. rewrite (re_sub_step m).
  destruct (m (c :: t)) as [rest|] eqn:E.
  - pose proof (consuming_length _ _ E) as Hl.
    apply consuming in E as [x [_ Ex]]. rewrite Ex, forallb_app in Hs.
    apply andb_prop in Hs as [_ Hr]. apply IH; auto.
  - simpl in *. apply andb_prop in Hs as [Hc Ht]. rewrite Hc. apply IH; auto.
Qed.

(** Two matchers that agree on the strings made of [P]-characters delete
    the same text from such a string. *)
Lemma re_sub_ext (P : char -> bool) (m1 m2 : matcher) `{Consuming m1} `{Consuming m2} :
  (forall u, forallb P u = true -> m1 u = m2 u) ->
  forall s, forallb P s = true -> re_sub m1 s = re_sub m2 s.
Proof.
  intros Hm s. induction s as [s IH] using list_length_ind. intros Hs.
  destruct s as [|c t]; [reflexivity|]. rewrite (re_sub_step m1), (re_sub_step m2), <- Hm by exact Hs.
  destruct (m1 (c :: t)) as [rest|] eqn:E.
  - pose proof (consuming_length _ _ E) as Hl.
    apply consuming in E as [x [_ Ex]]. rewrite Ex, forallb_app in Hs.
    apply andb_prop in Hs as [_ Hr]. apply IH; auto.
  - simpl in *. apply andb_prop in Hs as [_ Ht]. f_equal. apply IH; auto.
Qed.

Lemma match_plus_ext (P p1 p2 : char -> bool) (u : pystr) :
  (forall c, P c = true -> p1 c = p2 c) -> forallb P u = true ->
  match_plus p1 u = match_plus p2 u.
Proof.
  intros Hp Hu. destruct u as [|c t]; [reflexivity|]. simpl in *.
  apply andb_prop in Hu as [Hc Ht]. rewrite (Hp c Hc).
  erewrite drop_while_ext; eauto.
Qed.

Lemma match_lits_ext (P : char -> bool) (w : pystr) (m1 m2 : matcher) :
  (forall u, forallb P u = true -> m1 u = m2 u) ->
  forall u, forallb P u = true -> match_lits w m1 u = match_lits w m2 u.
Proof.
  intros Hm. induction w as [|c w IH]; intros u Hu; simpl; [auto|].
  destruct u as [|d t]; [reflexivity|]. simpl in Hu.
  apply andb_prop in Hu as [_ Ht]. destruct (c =? d); auto.
Qed.

(** A pattern that starts with a character absent from [s] matches
    nowhere in [s]. *)
Lemma no_match_lits (c : char) (w : pystr) (m : matcher) (s : pystr) :
  forallb (fun d => negb (d =? c)) s = true -> no_match (match_lits (c :: w) m) s = true.
Proof.
  induction s as [|d t IH]; simpl; [reflexivity|]. intros H.
  apply andb_prop in H as [Hd Ht]. apply negb_true_iff in Hd.
  rewrite N.eqb_sym, Hd. apply IH, Ht.
Qed.

(** ** Concrete runs *)

Lemma re_sub_id_iff_witness :
  no_match m_url (py "see you at http") = true /\
  re_sub m_url (py "see you at http") = py "see you at http".
Proof.
  assert (H : no_match m_url (py "see you at http") = true) by reflexivity.
  split; [exact H | apply (re_sub_id_iff m_url), H].
Defined.

