(* ===== verification/Clean.v ===== *)
(** * [clean_text] (app1.py, app2.py)

    The text cleaner both scripts define identically: four [re.sub] calls
    that delete URLs, mentions, hashtags and every character that is not an
    ASCII letter or whitespace, then [.lower().strip()].  The theorems: its
    output is lower-case letters and whitespace with no whitespace at
    either end; on ASCII input it does not depend on the Unicode tables;
    and it is idempotent exactly when its output contains no ["http"]
    followed by a non-space, which fails for outputs such as ["httpx"]. *)

From Stdlib Require Import String List NArith Lia Bool.
From S2P Require Import Prelude PyChar PyStr Regex.
Import ListNotations.
Open Scope N_scope.

Section Clean.
Context {U : UnicodeDB}.

(** [def clean_text(text)]: each line of the body in turn. *)
Definition clean_text (text : pystr) : pystr :=
  let text := re_sub m_url text in        (* re.sub(r"http\S+", '', text) *)
  let text := re_sub m_mention text in    (* re.sub(r"@\w+", '', text) *)
  let text := re_sub m_hashtag text in    (* re.sub(r"#\w+", '', text) *)
  let text := re_sub m_nonletter text in  (* re.sub(r"[^a-zA-Z\s]", '', text) *)
  strip (lower text).                     (* text.lower().strip() *)

End Clean.

(** The shape of a cleaned text: lower-case ASCII letters and whitespace,
    with no whitespace at either end. *)
Definition is_clean (t : pystr) : bool :=
  forallb (fun c => is_ascii_lower c || is_space c) t && stripped t.

Definition letter_or_space (c : char) : bool := is_ascii_letter c || is_space c.
Definition lower_or_space (c : char) : bool := is_ascii_lower c || is_space c.
Definition is_ascii (c : char) : bool := c <? 128.

(** * Properties *)

(** ** The steps of the cleaner *)

Lemma forallb_filter {A} (p : A -> bool) (l : list A) : forallb p (filter p l) = true.
Proof. induction l; simpl; auto. destruct (p a) eqn:E; simpl; rewrite ?E; auto. Qed.

Lemma filter_all {A} (p : A -> bool) (l : list A) : forallb p l = true -> filter p l = l.
Proof.
  induction l; simpl; auto. intros H; apply andb_prop in H as [-> H]. f_equal; auto.
Qed.

Lemma forallb_impl {A} (p q : A -> bool) (l : list A) :
  (forall x, p x = true -> q x = true) -> forallb p l = true -> forallb q l = true.
Proof.
  intros Hpq. rewrite !forallb_forall. intros H x Hx. apply Hpq, H, Hx.
Qed.

Lemma forallb_strip (q : char -> bool) (s : pystr) :
  forallb q s = true -> forallb q (strip s) = true.
Proof.
  destruct (strip_split s) as [pre [suf [Hs _]]]. rewrite Hs at 1.
  rewrite !forallb_app. intros H. split_bool. assumption.
Qed.

Lemma length_strip (s : pystr) : (length (strip s) <= length s)%nat.
Proof.
  destruct (strip_split s) as [pre [suf [Hs _]]]. rewrite Hs at 2.
  rewrite !length_app. lia.
Qed.

(** After [re.sub(r"[^a-zA-Z\s]", '', text)] only letters and whitespace
    are left. *)
Lemma nonletter_removed (t : pystr) : forallb letter_or_space (re_sub m_nonletter t) = true.
Proof.
  unfold m_nonletter. rewrite re_sub_class.
  erewrite filter_ext; [apply forallb_filter|]. intros c. apply negb_involutive.
Qed.

Lemma lower_or_space_letter c : lower_or_space c = true -> letter_or_space c = true.
Proof.
  unfold lower_or_space, letter_or_space, is_ascii_letter. intros H.
  split_bool; rewrite ?orb_true_iff in *; tauto.
Qed.

Lemma ascii_lower_letter_or_space c :
  letter_or_space c = true -> lower_or_space (ascii_lower c) = true.
Proof.
  unfold letter_or_space, lower_or_space. intros H. apply orb_true_iff in H as [H|H].
  - rewrite ascii_lower_letter by exact H. reflexivity.
  - rewrite ascii_lower_space, H by exact H. apply orb_true_r.
Qed.

Lemma ascii_lower_fix c : lower_or_space c = true -> ascii_lower c = c.
Proof.
  unfold lower_or_space. intros H. apply orb_true_iff in H as [H|H]; auto with pyhints.
Qed.

Lemma map_ascii_lower_fix (u : pystr) :
  forallb lower_or_space u = true -> map ascii_lower u = u.
Proof.
  induction u as [|c u IH]; simpl; [reflexivity|]. intros H. split_bool.
  rewrite ascii_lower_fix, IH; auto.
Qed.

Section WithDB.
Context {U : UnicodeDB}.

(** On letters and whitespace, [str.lower] is the ASCII mapping. *)
Lemma lower_letters (t : pystr) :
  forallb letter_or_space t = true -> lower t = map ascii_lower t.
Proof.
  induction t as [|c t IH]; simpl; [reflexivity|]. intros H.
  apply andb_prop in H as [Hc Ht]. rewrite IH by exact Ht.
  unfold letter_or_space in Hc. apply orb_true_iff in Hc as [Hc|Hc].
  - rewrite u_lower_ascii by auto with pyhints. reflexivity.
  - rewrite u_lower_space, ascii_lower_space by exact Hc. reflexivity.
Qed.

Lemma forallb_map_lower (t : pystr) :
  forallb letter_or_space t = true -> forallb lower_or_space (map ascii_lower t) = true.
Proof.
  induction t as [|c t IH]; simpl; auto. intros H. split_bool.
  rewrite ascii_lower_letter_or_space, IH; auto.
Qed.

End WithDB.

(** ** The shape of the output *)

Section Shape.
Context {U : UnicodeDB}.

Lemma clean_text_shape (s : pystr) : is_clean (clean_text s) = true.
Proof.
  unfold clean_text, is_clean.
  set (t := re_sub m_nonletter _). pose proof (nonletter_removed (re_sub m_hashtag
    (re_sub m_mention (re_sub m_url s)))) as Ht. fold t in Ht.
  rewrite lower_letters by exact Ht. rewrite strip_stripped, andb_true_r.
  apply forallb_strip, forallb_map_lower, Ht.
Qed.

(** C1: [clean_text] returns lower-case ASCII letters and whitespace, with no
    whitespace at either end (spec, section 8, first property). *)
Theorem clean_text_is_clean (s : pystr) : is_clean (clean_text s) = true.
Proof. intros; apply clean_text_shape; assumption. Qed.

(** A cleaned text holds no ['@'] and no ['#']. *)
Lemma lower_or_space_not (c : char) (t : pystr) :
  (c = 64 \/ c = 35) ->
  forallb lower_or_space t = true -> forallb (fun d => negb (d =? c)) t = true.
Proof.
  intros Hc. apply forallb_impl. intros d Hd. apply negb_true_iff, N.eqb_neq.
  intros ->. unfold lower_or_space in Hd. destruct Hc as [->| ->]; discriminate.
Qed.

(** On a cleaned text, only the URL step can still change anything. *)
Lemma clean_text_on_clean (t : pystr) :
  is_clean t = true -> clean_text t = strip (re_sub m_url t).
Proof.
  unfold is_clean. intros H. split_bool. fold lower_or_space in H.
  unfold clean_text. set (u := re_sub m_url t).
  assert (Hu : forallb lower_or_space u = true)
    by (apply re_sub_forallb; [typeclasses eauto | exact H]).
  assert (Hm : re_sub m_mention u = u).
  { apply re_sub_id_no_match; [typeclasses eauto|]. apply no_match_lits, lower_or_space_not; auto. }
  assert (Hh : re_sub m_hashtag u = u).
  { apply re_sub_id_no_match; [typeclasses eauto|]. apply no_match_lits, lower_or_space_not; auto. }
  assert (Hl : forallb letter_or_space u = true)
    by (eapply forallb_impl; [apply lower_or_space_letter | exact Hu]).
  rewrite Hm, Hh. unfold m_nonletter. rewrite re_sub_class.
  rewrite filter_all.
  2:{ eapply forallb_impl; [|exact Hl]. intros c Hc. rewrite negb_involutive. exact Hc. }
  rewrite lower_letters by exact Hl. rewrite map_ascii_lower_fix by exact Hu.
  reflexivity.
Qed.

Lemma clean_text_idem_no_url (s : pystr) :
  clean_text (clean_text s) = clean_text s <-> no_match m_url (clean_text s) = true.
Proof.
  pose proof (clean_text_shape s) as Hc. rewrite (clean_text_on_clean _ Hc).
  split.
  - intros E. destruct (no_match m_url (clean_text s)) eqn:N; [reflexivity|].
    apply re_sub_shrinks in N; [|typeclasses eauto].
    pose proof (length_strip (re_sub m_url (clean_text s))). rewrite E in *. lia.
  - intros N. apply re_sub_id_no_match in N; [|typeclasses eauto]. rewrite N.
    apply strip_id. unfold is_clean in Hc. split_bool. assumption.
Qed.

(** C6: [clean_text] is idempotent on [s] exactly when [http] followed by a
    non-space occurs nowhere in [clean_text s]. *)
Theorem clean_text_idem_iff (s : pystr) :
  clean_text (clean_text s) = clean_text s <-> no_match m_url (clean_text s) = true.
Proof. intros; apply clean_text_idem_no_url; assumption. Qed.

(** C18: [clean_text] never lengthens its input, whatever the Unicode
    tables: [str.lower] may map one character to several ('\u0130' to
    'i\u0307'), but it runs after every character but ASCII letters and
    whitespace is gone. *)
Theorem clean_text_length (s : pystr) : (length (clean_text s) <= length s)%nat.
Proof.
  unfold clean_text. rewrite lower_letters by apply nonletter_removed.
  etransitivity; [apply length_strip|]. rewrite length_map.
  repeat (etransitivity; [apply re_sub_length; typeclasses eauto|]). reflexivity.
Qed.

End Shape.

(** ** ASCII input does not reach the Unicode tables *)

Section Ascii.
Context {U : UnicodeDB}.

Lemma is_word_ascii (c : char) : is_ascii c = true -> @is_word U c = @is_word ascii_db c.
Proof.
  unfold is_ascii, is_word. intros H. apply N.ltb_lt in H.
  rewrite u_isalnum_ascii by exact H. reflexivity.
Qed.

Lemma match_word_ascii (w u : pystr) :
  forallb is_ascii u = true ->
  match_lits w (match_plus (@is_word U)) u = match_lits w (match_plus (@is_word ascii_db)) u.
Proof.
  apply match_lits_ext. intros v Hv. apply (match_plus_ext is_ascii); auto.
  apply is_word_ascii.
Qed.

Lemma lower_ascii (t : pystr) :
  forallb is_ascii t = true -> @lower U t = @lower ascii_db t.
Proof.
  induction t as [|c t IH]; simpl; [reflexivity|]. intros H. split_bool.
  unfold is_ascii in H. apply N.ltb_lt in H.
  rewrite u_lower_ascii, IH by assumption. reflexivity.
Qed.

Lemma clean_text_ascii_db (s : pystr) :
  forallb is_ascii s = true -> @clean_text U s = @clean_text ascii_db s.
Proof.
  intros Hs. unfold clean_text.
  assert (H1 : forallb is_ascii (re_sub m_url s) = true)
    by (apply re_sub_forallb; [typeclasses eauto | exact Hs]).
  rewrite (re_sub_ext is_ascii (@m_mention U) (@m_mention ascii_db))
    by (exact H1 || apply match_word_ascii).
  assert (H2 : forallb is_ascii (re_sub (@m_mention ascii_db) (re_sub m_url s)) = true)
    by (apply re_sub_forallb; [typeclasses eauto | exact H1]).
  rewrite (re_sub_ext is_ascii (@m_hashtag U) (@m_hashtag ascii_db))
    by (exact H2 || apply match_word_ascii).
  rewrite lower_ascii; [reflexivity|].
  apply re_sub_forallb; [typeclasses eauto|]. apply re_sub_forallb; [typeclasses eauto|exact H2].
Qed.

(** On ASCII input, [clean_text] is the same whatever the Unicode
    database: the concrete runs below use [ascii_db]. *)
Lemma clean_text_ascii (s : pystr) :
  forallb is_ascii s = true -> @clean_text U s = @clean_text ascii_db s.
Proof. intros; apply clean_text_ascii_db; assumption. Qed.

End Ascii.

(** ** The spec's examples *)

(** [clean_text("Check this out! http://x.co #happy @friend 123")] is
    ["check this out"] (spec, section 8). *)
Example clean_text_spec_example {U : UnicodeDB} :
  clean_text (py "Check this out! http://x.co #happy @friend 123") = py "check this out".
Proof. rewrite clean_text_ascii_db by reflexivity. vm_compute. reflexivity. Qed.

(** ** Where idempotence fails *)

(** [http\S+] is case-sensitive, so an upper-case URL is not deleted: its
    letters survive, lower-cased, as one token. *)
Example clean_text_upper_url {U : UnicodeDB} :
  clean_text (py "Visit HTTPS://T.CO/xyz") = py "visit httpstcoxyz".
Proof. rewrite clean_text_ascii_db by reflexivity. vm_compute. reflexivity. Qed.

Lemma clean_text_ascii_witness :
  forallb is_ascii (py "Hey @Ana, see #this: https://a.b!") = true /\
  @clean_text latin1_db (py "Hey @Ana, see #this: https://a.b!") =
  @clean_text ascii_db (py "Hey @Ana, see #this: https://a.b!").
Proof.
  assert (H : forallb is_ascii (py "Hey @Ana, see #this: https://a.b!") = true) by reflexivity.
  split; [exact H | apply (@clean_text_ascii latin1_db), H].
Defined.
