(* ===== verification/Predict.v ===== *)
(** * [predict_personality] (app1.py, app2.py) and the model artifacts

    [predict_personality(text)] cleans [text], hands the one-element batch
    [[cleaned]] to [vectorizer.transform] and returns [model.predict(...)[0]].
    The two pickled artifacts are opaque: they enter as the interfaces
    [Vectorizer] and [Classifier], whose laws are what scikit-learn's
    [transform] and [predict] promise (one output row per input row).  The
    spec's single "Model" capability, [predict(text) -> Label], is the
    class [TextModel]; the artifacts give an instance of it, and
    [predict_personality_refines] shows the script computes it and never
    raises on a [str].  A test double from the spec (section 8) is a
    concrete instance. *)

From Stdlib Require Import String List NArith ZArith Lia Bool.
From S2P Require Import Prelude PyChar PyStr Regex Clean.
Import ListNotations.

(** ** Values and labels *)

(** The Python values that reach [predict_personality]: a [str] from a
    text area, a text line or a CSV cell, and the non-[str] cells pandas
    produces (NaN for an empty cell, numbers when a column is numeric). *)
Inductive pyval : Type :=
  | VStr (s : pystr)
  | VNaN
  | VNum (n : Z).

(** A class label of the fitted classifier, compared with ["happy"]. *)
Definition label := string.

(** ** The artifact interfaces *)

(** [vectorizer = pickle.load(...)]: a fitted transformer, one feature row
    per document. *)
Class Vectorizer (Feature : Type) := {
  transform : list pystr -> list Feature;
  transform_rows : forall docs, length (transform docs) = length docs
}.

(** [model = pickle.load(...)]: a fitted classifier, one label per row. *)
Class Classifier (Feature : Type) := {
  predict : list Feature -> list label;
  predict_rows : forall rows, length (predict rows) = length rows
}.

(** The spec's "Model" capability: a label for a text. *)
Class TextModel := { model_label : pystr -> label }.

(** ** The operation *)

(** [re.sub] raises [TypeError] on a value that is not a [str]; on a [str]
    the body of [clean_text] runs. *)
Definition clean_val `{UnicodeDB} (v : pyval) : result pystr :=
  match v with
  | VStr s => Ok (clean_text s)
  | VNaN | VNum _ => Raise TypeError
  end.

(** [seq[0]] *)
Definition index0 {A} (l : list A) : result A :=
  match l with
  | x :: _ => Ok x
  | [] => Raise IndexError
  end.

Section Predict.
Context {U : UnicodeDB} {F : Type} {V : Vectorizer F} {C : Classifier F}.

(** [def predict_personality(text)] *)
Definition predict_personality (text : pyval) : result label :=
  cleaned <- clean_val text ;;          (* cleaned = clean_text(text) *)
  let vector := transform [cleaned] in   (* vectorizer.transform([cleaned]) *)
  index0 (predict vector).               (* model.predict(vector)[0] *)

(** The label the artifacts give a cleaned document. *)
Definition artifact_label (d : pystr) : label :=
  match predict (transform [d]) with
  | l :: _ => l
  | [] => EmptyString
  end.

#[export] Instance artifacts_model : TextModel := {| model_label := artifact_label |}.

End Predict.

(** * Properties *)

Section PredictProps.
Context {U : UnicodeDB} {F : Type} {V : Vectorizer F} {C : Classifier F}.

Lemma predict_one_row (d : pystr) :
  exists l, predict (transform [d]) = [l] /\ artifact_label d = l.
Proof.
  unfold artifact_label. pose proof (predict_rows (transform [d])) as H.
  rewrite transform_rows in H. destruct (predict (transform [d])) as [|l [|l' r]];
    simpl in H; try discriminate. eauto.
Qed.

Lemma predict_personality_eqn (v : pyval) :
  predict_personality v =
  match v with
  | VStr s => Ok (model_label (clean_text s))
  | VNaN | VNum _ => Raise TypeError
  end.
Proof.
  destruct v as [s| |n]; try reflexivity. unfold predict_personality. simpl.
  destruct (predict_one_row (clean_text s)) as [l [-> <-]]. reflexivity.
Qed.

(** C2: [predict_personality] computes the spec's Model on the cleaned text
    and returns its label unchanged; [model.predict(vector)[0]] never
    raises [IndexError]; a value that is not a [str] raises [TypeError]
    in the first [re.sub]. *)
Theorem predict_personality_spec (v : pyval) :
  predict_personality v =
  match v with
  | VStr s => Ok (model_label (clean_text s))
  | VNaN | VNum _ => Raise TypeError
  end.
Proof. intros; apply predict_personality_eqn; assumption. Qed.

(** The prediction depends on the text only through [clean_text]. *)
Corollary predict_personality_clean (s1 s2 : pystr) :
  clean_text s1 = clean_text s2 ->
  predict_personality (VStr s1) = predict_personality (VStr s2).
Proof. intros E. rewrite !predict_personality_eqn, E. reflexivity. Qed.

End PredictProps.

(** ** The spec's test double *)

(** A frozen model that labels a cleaned text ["happy"] when it holds the
    word ["happy"] and ["sad"] otherwise (spec, section 8): a count
    vectorizer with the one-word vocabulary [{happy}], tokenising as
    scikit-learn's default [(?u)\b\w\w+\b] does on cleaned text (runs of
    two or more non-space characters), and a threshold classifier. *)
Module TestDouble.

Fixpoint words_go (cur : pystr) (s : pystr) : list pystr :=
  match s with
  | [] => match cur with [] => [] | _ => [rev cur] end
  | c :: t =>
      if is_space c then
        match cur with [] => words_go [] t | _ => rev cur :: words_go [] t end
      else words_go (c :: cur) t
  end.

Definition tokens (s : pystr) : list pystr :=
  filter (fun w => Nat.leb 2 (length w)) (words_go [] s).

Definition happy_count (d : pystr) : nat :=
  length (filter (fun w => str_eqb w (py "happy")) (tokens d)).

#[export] Instance count_vectorizer : Vectorizer nat :=
  {| transform docs := map happy_count docs;
     transform_rows docs := length_map happy_count docs |}.

#[export] Instance threshold_classifier : Classifier nat :=
  {| predict rows := map (fun n => if Nat.eqb n 0 then "sad"%string else "happy"%string) rows;
     predict_rows rows := length_map _ rows |}.

End TestDouble.

Section TestDoubleRuns.
Import TestDouble.
Context {U : UnicodeDB}.

(** With the test double, [predict("I am SO happy!!")] is ["happy"] and
    [predict("nothing here")] is ["sad"] (spec, section 8). *)
Example predict_test_double :
  predict_personality (VStr (py "I am SO happy!!")) = Ok "happy"%string /\
  predict_personality (VStr (py "nothing here")) = Ok "sad"%string.
Proof.
  split; rewrite predict_personality_eqn, clean_text_ascii_db by reflexivity;
    vm_compute; reflexivity.
Qed.

End TestDoubleRuns.

(** [predict_personality_clean] at two posts that differ only in case and
    punctuation. *)
Lemma predict_personality_clean_witness :
  @clean_text ascii_db (py "I am SO happy!!") = @clean_text ascii_db (py "i am so happy") /\
  @predict_personality ascii_db nat TestDouble.count_vectorizer TestDouble.threshold_classifier
    (VStr (py "I am SO happy!!")) =
  @predict_personality ascii_db nat TestDouble.count_vectorizer TestDouble.threshold_classifier
    (VStr (py "i am so happy")).
Proof.
  split; [vm_compute; reflexivity|].
  apply predict_personality_clean. vm_compute. reflexivity.
Defined.
