(* ===== verification/Extract.v ===== *)
(** * The source extractors (app1.py, app2.py)

    [extract_docx_text], [extract_pdf_text] and the CSV step
    [df['text'].apply(predict_personality)].  The parsers they call
    (python-docx, PyPDF2, pandas) are third-party code: they enter as the
    record [libs] of their results on an uploaded file, each of which may
    raise.  The PDF loop keeps its list [text] as explicit state;
    [pdf_loop_spec] relates it to the page-by-page description of the
    spec, and the lines it returns are the spec's TextLines. *)

From Stdlib Require Import String List NArith ZArith Lia Bool.
From S2P Require Import Prelude PyChar PyStr Utf8 Regex Clean Predict.
Import ListNotations.

(** ** The parsed documents *)

(** An uploaded file: its name, and an identity the parsers read. *)
Record upload := { up_name : pystr; up_id : nat }.

(** [docx.Document(file)]: the texts of [doc.paragraphs], in order. *)
Record docx_doc := { paragraphs : list pystr }.

(** A PDF page: what [page.extract_text()] returns ([None], a [str]) or
    raises. *)
Record pdf_page := { extract_text : result (option pystr) }.

(** [PyPDF2.PdfReader(file)]: [reader.pages]. *)
Record pdf_reader := { pages : list pdf_page }.

(** [pd.read_csv(file)]: the column names (pandas renames duplicates, so
    they are distinct) and the rows, one cell per column. *)
Record dataframe := { columns : list pystr; rows : list (list pyval) }.

(** [Image.open(file)]: a decoded image. *)
Record image := { img_id : nat }.

(** The library calls on an uploaded file. *)
Record libs := {
  docx_Document : upload -> result docx_doc;
  PdfReader : upload -> result pdf_reader;
  read_csv : upload -> result dataframe;
  read_bytes : upload -> list Byte.byte;        (* uploaded_file.read() *)
  Image_open : upload -> result image;
  tesseract_found : pystr -> bool;              (* an executable of that path or name *)
  ocr : image -> result pystr                   (* what the tesseract program reads *)
}.

(** [pytesseract.image_to_string(img)] runs the program that
    [pytesseract.pytesseract.tesseract_cmd] names (by default the name
    [tesseract], looked up in the PATH); when there is no such program it
    raises [TesseractNotFoundError]. *)
Definition image_to_string (L : libs) (tesseract_cmd : pystr) (img : image) : result pystr :=
  if tesseract_found L tesseract_cmd then ocr L img
  else Raise (LibraryError "TesseractNotFoundError").

Definition default_tesseract_cmd : pystr := py "tesseract".

(** The truth value of a [str]. *)
Definition truthy (s : pystr) : bool := match s with [] => false | _ => true end.

Section Extract.
Context (L : libs).

(** [def extract_docx_text(file)] *)
Definition extract_docx_text (file : upload) : result (list pystr) :=
  doc <- docx_Document L file ;;
  Ok (filter strip_nonempty (paragraphs doc)).

(** The [for page in reader.pages] loop, with its list [text]. *)
Fixpoint pdf_loop (ps : list pdf_page) (text : list pystr) : result (list pystr) :=
  match ps with
  | [] => Ok text
  | page :: ps' =>
      page_text <- extract_text page ;;
      match page_text with
      | Some t => if truthy t then pdf_loop ps' (text ++ splitlines t)
                  else pdf_loop ps' text
      | None => pdf_loop ps' text
      end
  end.

(** [def extract_pdf_text(file)] *)
Definition extract_pdf_text (file : upload) : result (list pystr) :=
  reader <- PdfReader L file ;;
  text <- pdf_loop (pages reader) [] ;;
  Ok (filter strip_nonempty text).

End Extract.

(** ** The CSV column *)

(** [lst.index(x)], [None] when absent. *)
Fixpoint find_index (x : pystr) (l : list pystr) : option nat :=
  match l with
  | [] => None
  | y :: l' => if str_eqb x y then Some 0%nat
               else option_map S (find_index x l')
  end.

Section Csv.
Context {U : UnicodeDB} {F : Type} {V : Vectorizer F} {C : Classifier F}.

(** [df['text']]: the cells of column [i]. *)
Definition column (i : nat) (df : dataframe) : list pyval :=
  map (fun r => nth i r VNaN) (rows df).

(** [if 'text' in df.columns: df['Prediction'] = df['text'].apply(predict_personality)]:
    [None] when there is no ['text'] column, otherwise the rows' texts
    with their predictions, or the exception of the first failing row. *)
Definition csv_predict (df : dataframe) : option (result (list (pyval * label))) :=
  match find_index (py "text") (columns df) with
  | None => None
  | Some i =>
      Some (map_result (fun v => p <- predict_personality v ;; Ok (v, p)) (column i df))
  end.

End Csv.

(** * Properties *)

(** The lines one page contributes. *)
Definition page_lines (o : option pystr) : list pystr :=
  match o with Some t => splitlines t | None => [] end.

Lemma splitlines_nil : splitlines [] = [].
Proof. reflexivity. Qed.

(** The loop of [extract_pdf_text] is the concatenation, in page order,
    of the lines of each page's text; the first page whose
    [extract_text()] raises aborts it. *)
Lemma pdf_loop_spec (ps : list pdf_page) (acc : list pystr) :
  pdf_loop ps acc = (ts <- map_result extract_text ps ;; Ok (acc ++ concat (map page_lines ts))).
Proof.
  revert acc. induction ps as [|p ps IH]; intros acc; simpl.
  - rewrite app_nil_r. reflexivity.
  - destruct (extract_text p) as [[t|]|e]; simpl; [|rewrite IH|reflexivity].
    + destruct (truthy t) eqn:T; rewrite IH;
        destruct (map_result extract_text ps); simpl; try reflexivity.
      * rewrite app_assoc. reflexivity.
      * destruct t; [|discriminate]. reflexivity.
    + destruct (map_result extract_text ps); reflexivity.
Qed.

Lemma extract_pdf_text_eqn (L : libs) (file : upload) :
  extract_pdf_text L file =
  (reader <- PdfReader L file ;;
   ts <- map_result extract_text (pages reader) ;;
   Ok (filter strip_nonempty (concat (map page_lines ts)))).
Proof.
  unfold extract_pdf_text. destruct (PdfReader L file) as [r|e]; [simpl|reflexivity].
  rewrite pdf_loop_spec. destruct (map_result extract_text (pages r)); reflexivity.
Qed.

(** C5: [extract_pdf_text] is the spec's PDF extractor: per-page text split
    into lines, concatenated in page order, blank lines dropped. *)
Theorem extract_pdf_text_spec (L : libs) (file : upload) :
  extract_pdf_text L file =
  (reader <- PdfReader L file ;;
   ts <- map_result extract_text (pages reader) ;;
   Ok (filter strip_nonempty (concat (map page_lines ts)))).
Proof. intros; apply extract_pdf_text_eqn; assumption. Qed.

Lemma filter_strip_nonempty (ls : list pystr) :
  Forall (fun l => strip_nonempty l = true) (filter strip_nonempty ls).
Proof. apply Forall_forall. intros l Hl. apply filter_In in Hl. tauto. Qed.

(** C30: Every line the PDF and Word extractors return is a TextLine: it has
    a non-whitespace character. *)
Theorem extract_text_lines (L : libs) (file : upload) (lines : list pystr) :
  extract_pdf_text L file = Ok lines \/ extract_docx_text L file = Ok lines ->
  Forall (fun l => strip_nonempty l = true) lines.
Proof.
  unfold extract_pdf_text, extract_docx_text. intros [H|H].
  - destruct (PdfReader L file); [simpl in H|discriminate].
    destruct (pdf_loop _ _); [simpl in H|discriminate].
    injection H as <-. apply filter_strip_nonempty.
  - destruct (docx_Document L file); [simpl in H|discriminate].
    injection H as <-. apply filter_strip_nonempty.
Qed.

Lemma splitlines_blank (t : pystr) :
  forallb is_space t = true -> filter strip_nonempty (splitlines t) = [].
Proof.
  intros Ht. assert (Hl : forall l, In l (splitlines t) -> strip_nonempty l = false).
  { intros l Hl. rewrite strip_nonempty_iff. apply negb_false_iff, forallb_forall.
    intros c Hc. assert (Hin : In c (filter (fun c => negb (is_linebreak c)) t)).
    { rewrite <- splitlines_concat. apply in_concat. eauto. }
    apply filter_In in Hin as [Hin _]. rewrite forallb_forall in Ht. auto. }
  induction (splitlines t) as [|l ls IH]; simpl; [reflexivity|].
  rewrite Hl by (left; reflexivity). apply IH. intros l' H'. apply Hl. right; exact H'.
Qed.

Definition blank_page (p : pdf_page) : Prop :=
  extract_text p = Ok None \/
  exists t, extract_text p = Ok (Some t) /\ forallb is_space t = true.

Lemma blank_pages_lines (ps : list pdf_page) :
  Forall blank_page ps ->
  exists ts, map_result extract_text ps = Ok ts /\
             filter strip_nonempty (concat (map page_lines ts)) = [].
Proof.
  induction 1 as [|p ps Hp Hps [ts [Hts Hf]]]; [exists []; auto|]. simpl.
  rewrite Hts. destruct Hp as [-> | [t [-> Ht]]]; simpl.
  - exists (None :: ts). auto.
  - exists (Some t :: ts). simpl. rewrite filter_app, Hf, splitlines_blank by exact Ht. auto.
Qed.

(** C29: A PDF whose pages have no text, or only whitespace, gives no lines and
    no error (spec, section 8: a page with nothing extractable
    contributes zero lines). *)
Theorem extract_pdf_blank_pages (L : libs) (file : upload) (r : pdf_reader) :
  PdfReader L file = Ok r -> Forall blank_page (pages r) ->
  extract_pdf_text L file = Ok [].
Proof.
  intros Hr Hp. rewrite extract_pdf_text_eqn, Hr. simpl.
  destruct (blank_pages_lines _ Hp) as [ts [-> Hf]]. simpl. rewrite Hf. reflexivity.
Qed.

(** ** The CSV step *)

Lemma find_index_None (x : pystr) (l : list pystr) :
  find_index x l = None <-> ~ In x l.
Proof.
  induction l as [|y l IH]; simpl; [tauto|].
  destruct (str_eqb x y) eqn:E.
  - apply str_eqb_eq in E. subst. split; [discriminate | tauto].
  - assert (x <> y) by (intros ->; rewrite (proj2 (str_eqb_eq y y) eq_refl) in E; discriminate).
    destruct (find_index x l); simpl; split; try discriminate; intuition congruence.
Qed.

Definition is_str (v : pyval) : bool := match v with VStr _ => true | _ => false end.

Section CsvProps.
Context {U : UnicodeDB} {F : Type} {V : Vectorizer F} {C : Classifier F}.

(** The label a cell gets when it is a [str]. *)
Definition cell_label (v : pyval) : label :=
  match v with VStr s => model_label (clean_text s) | _ => EmptyString end.

Lemma csv_predict_eqn (df : dataframe) :
  csv_predict df =
  match find_index (py "text") (columns df) with
  | None => None
  | Some i =>
      Some (if forallb is_str (column i df)
            then Ok (map (fun v => (v, cell_label v)) (column i df))
            else Raise TypeError)
  end.
Proof.
  unfold csv_predict. destruct (find_index _ _) as [i|]; [|reflexivity].
  f_equal. apply map_result_uniform. intros [s| |n]; rewrite predict_personality_eqn; reflexivity.
Qed.

(** C4: Without a ['text'] column there is no prediction at all (the
    StructuralValidationError of the spec); with one, every row gets its
    label in row order when every cell is a [str], and the whole file
    fails with [TypeError] as soon as one cell is not (an empty cell is
    NaN in pandas). *)
Theorem csv_predict_spec (df : dataframe) :
  csv_predict df =
  match find_index (py "text") (columns df) with
  | None => None
  | Some i =>
      Some (if forallb is_str (column i df)
            then Ok (map (fun v => (v, cell_label v)) (column i df))
            else Raise TypeError)
  end.
Proof. intros; apply csv_predict_eqn; assumption. Qed.

(** The CSV step gives no prediction exactly when the table has no
    column named ['text']. *)
Corollary csv_predict_none (df : dataframe) :
  csv_predict df = None <-> ~ In (py "text") (columns df).
Proof.
  rewrite <- find_index_None, csv_predict_eqn.
  destruct (find_index _ _); split; congruence.
Qed.

(** C31: One record per row, in row order. *)
Corollary csv_predict_rows (df : dataframe) (recs : list (pyval * label)) :
  csv_predict df = Some (Ok recs) ->
  length recs = length (rows df) /\
  exists i, find_index (py "text") (columns df) = Some i /\ map fst recs = column i df.
Proof.
  rewrite csv_predict_eqn. destruct (find_index _ _) as [i|] eqn:E; [|discriminate].
  destruct (forallb is_str (column i df)); intros H; [injection H as <- | discriminate].
  rewrite length_map. unfold column. rewrite length_map. split; [reflexivity|].
  exists i. split; [reflexivity|]. rewrite map_map. apply map_id.
Qed.

End CsvProps.

Lemma csv_predict_rows_witness :
  let df := {| columns := [py "text"]; rows := [[VStr (py "so happy")]; [VStr (py "meh")]] |} in
  @csv_predict ascii_db nat TestDouble.count_vectorizer TestDouble.threshold_classifier df =
    Some (Ok [(VStr (py "so happy"), "happy"%string); (VStr (py "meh"), "sad"%string)]) /\
  length [(VStr (py "so happy"), "happy"%string); (VStr (py "meh"), "sad"%string)] = length (rows df) /\
  exists i, find_index (py "text") (columns df) = Some i /\
    map fst [(VStr (py "so happy"), "happy"%string); (VStr (py "meh"), "sad"%string)] = column i df.
Proof.
  intros df. assert (H : @csv_predict ascii_db nat TestDouble.count_vectorizer
    TestDouble.threshold_classifier df =
    Some (Ok [(VStr (py "so happy"), "happy"%string); (VStr (py "meh"), "sad"%string)]))
    by (vm_compute; reflexivity).
  split; [exact H | apply (csv_predict_rows df _ H)].
Defined.

(** ** Concrete runs *)

(** Parsers that return fixed documents. *)
Definition sample_page_blank : pdf_page := {| extract_text := Ok None |}.
Definition sample_page_spaces : pdf_page := {| extract_text := Ok (Some (py "  ")) |}.

(** The text of the sample [.txt] upload: "caf\u00e9", a blank line, "bad day". *)
Definition sample_txt : pystr := [99; 97; 102; 233; 10; 10] ++ py "bad day".

Definition sample_libs : libs := {|
  docx_Document _ := Ok {| paragraphs := [py "Hello"; py "  "; py "Bye"] |};
  PdfReader _ := Ok {| pages := [sample_page_blank; sample_page_spaces] |};
  read_csv _ := Raise (LibraryError "no csv");
  read_bytes _ := utf8_encode sample_txt;
  Image_open _ := Ok {| img_id := 0 |};
  tesseract_found _ := true;
  ocr _ := Ok []
|}.

Definition sample_file : upload := {| up_name := py "post.pdf"; up_id := 0 |}.

Lemma extract_pdf_blank_pages_witness :
  PdfReader sample_libs sample_file = Ok {| pages := [sample_page_blank; sample_page_spaces] |} /\
  Forall blank_page (pages {| pages := [sample_page_blank; sample_page_spaces] |}) /\
  extract_pdf_text sample_libs sample_file = Ok [].
Proof.
  assert (H1 : PdfReader sample_libs sample_file =
               Ok {| pages := [sample_page_blank; sample_page_spaces] |}) by reflexivity.
  assert (H2 : Forall blank_page (pages {| pages := [sample_page_blank; sample_page_spaces] |})).
  { constructor; [left; reflexivity|]. constructor; [|constructor].
    right. exists (py "  "). split; reflexivity. }
  split; [exact H1 | split; [exact H2 | apply (extract_pdf_blank_pages _ _ _ H1 H2)]].
Defined.

Lemma extract_text_lines_witness :
  extract_docx_text sample_libs sample_file = Ok [py "Hello"; py "Bye"] /\
  Forall (fun l => strip_nonempty l = true) [py "Hello"; py "Bye"].
Proof.
  assert (H : extract_docx_text sample_libs sample_file = Ok [py "Hello"; py "Bye"])
    by reflexivity.
  split; [exact H | apply (extract_text_lines sample_libs sample_file), or_intror, H].
Defined.
