(* ===== verification/App.v ===== *)
(** * The Streamlit scripts app.py, app1.py and app2.py

    Streamlit runs a script top to bottom on every interaction; the widget
    values of that interaction ([widgets]) are its input, and what it
    renders, in order, is its output.  A run is a computation of the
    monad [ui]: it appends elements and may raise; [try_except] is a
    Python [try:]/[except Exception as e:] block, and an exception no
    block catches ends the run (Streamlit then shows the traceback).
    Message texts are kept without their emoji. *)

From Stdlib Require Import String List NArith ZArith Lia Bool.
From S2P Require Import Prelude PyChar PyStr Utf8 Regex Clean Predict Extract.
Import ListNotations.

(** ** Rendered elements *)

Inductive elem : Type :=
  | Static (what : string)                 (** page config, title, markdown, caption *)
  | TextArea (label : string) (value : pystr)
  | Button (label : string)
  | Uploader (label : string)
  | ShowImage                              (** st.image *)
  | Success (msg : string)
  | Error (msg : string)
  | ErrorExn (prefix : string) (e : exn)   (** st.error(f"{prefix}: {e}") *)
  | Warning (msg : string)
  | Table (rows : list (pystr * label))    (** st.dataframe of Post / Prediction *)
  | CsvTable (rows : list (pyval * label)). (** st.dataframe(df[['text', 'Prediction']]) *)

(** The widget values of one run. *)
Record widgets := {
  text_input : pystr;          (** st.text_area of the single post *)
  post_clicked : bool;         (** its button *)
  file : option upload;        (** st.file_uploader for documents *)
  image_file : option upload;  (** st.file_uploader for images *)
  image_clicked : bool         (** the image's predict button *)
}.

(** ** The script monad: rendered elements, then a value or an exception *)

Definition ui (A : Type) : Type := (list elem * result A)%type.

Definition ret {A} (a : A) : ui A := ([], Ok a).
Definition emit (e : elem) : ui unit := ([e], Ok tt).
Definition lift {A} (r : result A) : ui A := ([], r).

Definition ui_bind {A B} (m : ui A) (k : A -> ui B) : ui B :=
  match m with
  | (o1, Ok a) => let (o2, r) := k a in (o1 ++ o2, r)
  | (o1, Raise e) => (o1, Raise e)
  end.

(** [try: m except Exception as e: h(e)]: what [m] rendered stays on the
    page. *)
Definition try_except (m : ui unit) (h : exn -> ui unit) : ui unit :=
  match m with
  | (o1, Raise e) => let (o2, r) := h e in (o1 ++ o2, r)
  | (o1, Ok a) => (o1, Ok a)
  end.

Declare Scope ui_scope.
Delimit Scope ui_scope with ui.
Notation "x <-- m ;; k" := (ui_bind m (fun x => k))
  (at level 61, m at next level, right associativity) : ui_scope.
Notation "m ;;; k" := (ui_bind m (fun _ => k))
  (at level 61, right associativity) : ui_scope.
Open Scope ui_scope.

(** ** Shared pieces *)

(** [if result == "happy": st.success(...) else: st.error(...)] *)
Definition show_label (result : label) : elem :=
  if String.eqb result "happy" then Success "Personality Prediction: HAPPY"
  else Error "Personality Prediction: SAD".

(** [{"Post": line, "Prediction": predict_personality(line)} for line in lines] *)
Definition predict_lines `{UnicodeDB} {F} `{Vectorizer F} `{Classifier F}
    (lines : list pystr) : result (list (pystr * label)) :=
  map_result (fun line => p <- predict_personality (VStr line) ;; Ok (line, p)) lines.

(** [uploaded_file.name.split('.')[-1].lower()] *)
Definition file_ext `{UnicodeDB} (f : upload) : result pystr :=
  e <- index_last (split 46 (up_name f)) ;; Ok (lower e).

(** [with open('vectorizer.pkl', 'rb') as f: vectorizer = pickle.load(f)] and
    the same for [model.pkl]: [Ok tt] when both artifacts loaded. *)
Definition load_models (vec_load model_load : result unit) : result unit :=
  _ <- vec_load ;; model_load.

(** ** app1.py *)

Section App1.
Context {U : UnicodeDB} {F : Type} {V : Vectorizer F} {C : Classifier F} (L : libs).

(** Lines 46-50: page configuration and headings. *)
Definition app1_header : ui unit :=
  emit (Static "set_page_config: Personality Prediction") ;;;
  emit (Static "title: Personality Prediction from Social Media Posts") ;;;
  emit (Static "subheader: Analyze what your words reveal about your personality") ;;;
  emit (Static "markdown: Enter a social media post or upload a file").

(** Lines 52-64: the single post. *)
Definition app1_post (w : widgets) : ui unit :=
  emit (Static "markdown: Predict from a Single Post") ;;;
  emit (TextArea "Enter a social media post:" (text_input w)) ;;;
  emit (Button "Predict Personality") ;;;
  if post_clicked w then
    if negb (strip_nonempty (text_input w)) then emit (Warning "Please enter a post.")
    else result <-- lift (predict_personality (VStr (text_input w))) ;;
         emit (show_label result)
  else ret tt.

(** Lines 74-104: the body of the [try:] on an uploaded file. *)
Definition app1_file_branch (f : upload) : ui unit :=
  file_type <-- lift (file_ext f) ;;
  if str_eqb file_type (py "csv") then
    df <-- lift (read_csv L f) ;;
    match csv_predict df with
    | Some r =>
        recs <-- lift r ;;
        emit (Success "Predictions completed.") ;;; emit (CsvTable recs)
    | None => emit (Error "CSV must have a column named 'text'.")
    end
  else if str_eqb file_type (py "txt") then
    s <-- lift (utf8_decode (read_bytes L f)) ;;
    results <-- lift (predict_lines (filter strip_nonempty (splitlines s))) ;;
    emit (Success "Predictions completed.") ;;; emit (Table results)
  else if str_eqb file_type (py "docx") then
    text_lines <-- lift (extract_docx_text L f) ;;
    results <-- lift (predict_lines text_lines) ;;
    emit (Success "Predictions completed.") ;;; emit (Table results)
  else if str_eqb file_type (py "pdf") then
    text_lines <-- lift (extract_pdf_text L f) ;;
    results <-- lift (predict_lines text_lines) ;;
    emit (Success "Predictions completed.") ;;; emit (Table results)
  else emit (Error "Unsupported file format.").

(** Lines 66-107: the file section. *)
Definition app1_file_section (w : widgets) : ui unit :=
  emit (Static "markdown: ---") ;;;
  emit (Static "markdown: Upload a File (.txt, .csv, .docx, .pdf)") ;;;
  emit (Uploader "Upload a file:") ;;;
  match file w with
  | Some f => try_except (app1_file_branch f) (fun e => emit (ErrorExn "Error processing file" e))
  | None => ret tt
  end.

(** Lines 109-112. *)
Definition app1_footer : ui unit :=
  emit (Static "markdown: ---") ;;;
  emit (Static "caption: Project: Personality Prediction from Social Media Posts") ;;;
  emit (Static "caption: Developed by: PURAMA SAI SRUJANA (CSE, 2025)").

(** One run of app1.py: the model files are loaded first (lines 10-14),
    outside any [try:]. *)
Definition app1_run (vec_load model_load : result unit) (w : widgets) : ui unit :=
  _ <-- lift (load_models vec_load model_load) ;;
  app1_header ;;; app1_post w ;;; app1_file_section w ;;; app1_footer.

End App1.

(** ** app2.py *)

Section App2.
Context {U : UnicodeDB} {F : Type} {V : Vectorizer F} {C : Classifier F} (L : libs).

(** Lines 59-63. *)
Definition app2_header : ui unit :=
  emit (Static "set_page_config: Personality Predictor") ;;;
  emit (Static "title: Personality Prediction from Social Media Posts") ;;;
  emit (Static "subheader: Predict if the personality is Happy or Sad") ;;;
  emit (Static "markdown: Upload a file, paste a post, or upload an image of text").

(** Lines 66-77. *)
Definition app2_post (w : widgets) : ui unit :=
  emit (Static "markdown: Type or Paste a Social Media Post") ;;;
  emit (TextArea "Enter a single social media post here:" (text_input w)) ;;;
  emit (Button "Predict Text") ;;;
  if post_clicked w then
    if strip_nonempty (text_input w) then
      result <-- lift (predict_personality (VStr (text_input w))) ;;
      emit (show_label result)
    else emit (Warning "Please enter some text to analyze.")
  else ret tt.

(** Lines 87-114: no [else] after the [pdf] branch. *)
Definition app2_file_branch (f : upload) : ui unit :=
  ext <-- lift (file_ext f) ;;
  if str_eqb ext (py "csv") then
    df <-- lift (read_csv L f) ;;
    match csv_predict df with
    | Some r =>
        recs <-- lift r ;;
        emit (Success "Predictions completed.") ;;; emit (CsvTable recs)
    | None => emit (Error "CSV must contain a 'text' column.")
    end
  else if str_eqb ext (py "txt") then
    s <-- lift (utf8_decode (read_bytes L f)) ;;
    results <-- lift (predict_lines (filter strip_nonempty (splitlines s))) ;;
    emit (Success "Predictions completed.") ;;; emit (Table results)
  else if str_eqb ext (py "docx") then
    lines <-- lift (extract_docx_text L f) ;;
    results <-- lift (predict_lines lines) ;;
    emit (Success "Predictions completed.") ;;; emit (Table results)
  else if str_eqb ext (py "pdf") then
    lines <-- lift (extract_pdf_text L f) ;;
    results <-- lift (predict_lines lines) ;;
    emit (Success "Predictions completed.") ;;; emit (Table results)
  else ret tt.

(** Lines 80-117. *)
Definition app2_file_section (w : widgets) : ui unit :=
  emit (Static "markdown: ---") ;;;
  emit (Static "markdown: Upload a Text-based File") ;;;
  emit (Uploader "Upload .txt, .csv (with 'text' column), .docx, or .pdf") ;;;
  match file w with
  | Some f => try_except (app2_file_branch f) (fun e => emit (ErrorExn "Error processing file" e))
  | None => ret tt
  end.

(** Line 14: the OCR program app2.py configures, unconditionally. *)
Definition app2_tesseract_cmd : pystr :=
  py "C:\Program Files\Tesseract-OCR\tesseract.exe".

(** Lines 126-141: the body of the [try:] on an uploaded image. *)
Definition app2_image_branch (w : widgets) (f : upload) : ui unit :=
  img <-- lift (Image_open L f) ;;
  emit ShowImage ;;;
  extracted_text <-- lift (image_to_string L app2_tesseract_cmd img) ;;
  emit (TextArea "Text extracted from image:" extracted_text) ;;;
  emit (Button "Predict Image Text") ;;;
  if image_clicked w then
    if strip_nonempty extracted_text then
      result <-- lift (predict_personality (VStr extracted_text)) ;;
      emit (show_label result)
    else emit (Warning "No readable text found in image.")
  else ret tt.

(** Lines 120-143. *)
Definition app2_image_section (w : widgets) : ui unit :=
  emit (Static "markdown: ---") ;;;
  emit (Static "markdown: Upload an Image (Screenshot of Post or Text)") ;;;
  emit (Uploader "Upload PNG or JPG:") ;;;
  match image_file w with
  | Some f => try_except (app2_image_branch w f) (fun e => emit (ErrorExn "Error reading image" e))
  | None => ret tt
  end.

(** Lines 146-148. *)
Definition app2_footer : ui unit :=
  emit (Static "markdown: ---") ;;;
  emit (Static "caption: Project: Personality Prediction from Social Media Posts") ;;;
  emit (Static "caption: Developer: PURAMA SAI SRUJANA | Dept. of CSE | 2025").

(** One run of app2.py (the models load at lines 21-25). *)
Definition app2_run (vec_load model_load : result unit) (w : widgets) : ui unit :=
  _ <-- lift (load_models vec_load model_load) ;;
  app2_header ;;; app2_post w ;;; app2_file_section w ;;;
  app2_image_section w ;;; app2_footer.

End App2.

(** ** app.py *)

Section App0.
Context {U : UnicodeDB} (L : libs).

(** app.py neither defines nor imports [predict_personality]: looking the
    name up raises [NameError]. *)
Definition app_predict_personality (v : pyval) : result label :=
  Raise (NameError "predict_personality").

(** Lines 13-31: the body of the [try:]; the OCR program is pytesseract's
    default, line 7 being a comment. *)
Definition app_image_branch (w : widgets) (f : upload) : ui unit :=
  image <-- lift (Image_open L f) ;;
  emit ShowImage ;;;
  extracted_text <-- lift (image_to_string L default_tesseract_cmd image) ;;
  emit (Static "markdown: Extracted Text from Image:") ;;;
  emit (TextArea "Text found in image:" extracted_text) ;;;
  emit (Button "Predict Personality from Image Text") ;;;
  if image_clicked w then
    if strip_nonempty extracted_text then
      result <-- lift (app_predict_personality (VStr extracted_text)) ;;
      emit (show_label result)
    else emit (Warning "No readable text found in the image.")
  else ret tt.

(** One run of app.py (lines 9-34). *)
Definition app_run (w : widgets) : ui unit :=
  emit (Static "markdown: Upload an Image with Text (Screenshot of Post)") ;;;
  emit (Uploader "Upload an image (PNG or JPG):") ;;;
  match image_file w with
  | Some f => try_except (app_image_branch w f) (fun e => emit (ErrorExn "Error reading image" e))
  | None => ret tt
  end.

End App0.

(** ** Comparing the scripts

    [to_app2] rewrites what app1.py renders into what app2.py renders in
    the same situation: the wording of the single post's widgets and
    warning, and of the CSV error, differ; app1.py's report of an
    unsupported format has no counterpart in app2.py. *)
Definition to_app2 (e : elem) : list elem :=
  match e with
  | Static s =>
      if String.eqb s "markdown: Predict from a Single Post"
      then [Static "markdown: Type or Paste a Social Media Post"] else [e]
  | TextArea s t =>
      if String.eqb s "Enter a social media post:"
      then [TextArea "Enter a single social media post here:" t] else [e]
  | Button s => if String.eqb s "Predict Personality" then [Button "Predict Text"] else [e]
  | Warning s =>
      if String.eqb s "Please enter a post."
      then [Warning "Please enter some text to analyze."] else [e]
  | Error s =>
      if String.eqb s "CSV must have a column named 'text'."
      then [Error "CSV must contain a 'text' column."]
      else if String.eqb s "Unsupported file format." then [] else [e]
  | _ => [e]
  end.

(** The same run with its rendered elements rewritten. *)
Definition ui_map_elems {A} (g : elem -> list elem) (m : ui A) : ui A :=
  (flat_map g (fst m), snd m).

(** * Properties *)

(** ** The script monad *)

Lemma ui_bind_ok {A B} (o : list elem) (a : A) (k : A -> ui B) :
  ui_bind (o, Ok a) k = (o ++ fst (k a), snd (k a)).
Proof. simpl. destruct (k a). reflexivity. Qed.

Lemma ui_bind_raise {A B} (o : list elem) (e : exn) (k : A -> ui B) :
  ui_bind (o, Raise e) k = (o, Raise e).
Proof. reflexivity. Qed.

Lemma ui_bind_assoc {A B D} (m : ui A) (k : A -> ui B) (k' : B -> ui D) :
  ui_bind (ui_bind m k) k' = ui_bind m (fun a => ui_bind (k a) k').
Proof.
  destruct m as [o [a|e]]; [|reflexivity]. simpl.
  destruct (k a) as [o2 [b|e]]; simpl; [|reflexivity].
  destruct (k' b) as [o3 r]. rewrite app_assoc. reflexivity.
Qed.

(** A computation that raises nothing. *)
Definition completes {A} (m : ui A) : Prop := exists a, snd m = Ok a.

Lemma completes_emit (e : elem) : completes (emit e).
Proof. exists tt. reflexivity. Qed.

Lemma completes_ret {A} (a : A) : completes (ret a).
Proof. exists a. reflexivity. Qed.

Lemma completes_bind {A B} (m : ui A) (k : A -> ui B) :
  (forall a, snd m = Ok a -> completes (k a)) -> completes m -> completes (ui_bind m k).
Proof.
  intros Hk [a Ha]. destruct m as [o r]. simpl in Ha. subst r.
  rewrite ui_bind_ok. apply Hk. reflexivity.
Qed.

Lemma completes_lift_ok {A} (a : A) : completes (lift (Ok a)).
Proof. exists a. reflexivity. Qed.

(** A [try:] whose handler raises nothing raises nothing. *)
Lemma completes_try (m : ui unit) (h : exn -> ui unit) :
  (forall e, completes (h e)) -> completes (try_except m h).
Proof.
  intros Hh. destruct m as [o [[]|e]]; simpl; [exists tt; reflexivity|].
  destruct (Hh e) as [a Ha]. destruct (h e) as [o2 r]. exists a. exact Ha.
Qed.

#[export] Hint Resolve completes_emit completes_ret completes_lift_ok completes_try : pyhints.

Ltac completes_tac :=
  repeat first
    [ assumption
    | apply completes_bind; [intros ? ?|]
    | apply completes_try; intros ?
    | progress (simpl lift)
    | match goal with |- completes (if ?b then _ else _) => destruct b end
    | match goal with |- completes (match ?x with _ => _ end) => destruct x end
    | solve [auto with pyhints] ].

(** ** No request can end a run *)

Section Totality.
Context {U : UnicodeDB} {F : Type} {V : Vectorizer F} {C : Classifier F} (L : libs).

Lemma app1_post_completes (w : widgets) : completes (app1_post w).
Proof. unfold app1_post. rewrite predict_personality_eqn. completes_tac. Qed.

Lemma app2_post_completes (w : widgets) : completes (app2_post w).
Proof. unfold app2_post. rewrite predict_personality_eqn. completes_tac. Qed.

Lemma app2_image_section_completes (w : widgets) : completes (app2_image_section L w).
Proof. unfold app2_image_section. completes_tac. Qed.

(** C3: Once the two model files have loaded, no input of a run of app1.py
    (any text, any uploaded file, any parser failure) raises out of the
    script: each per-request error is caught by its [try:] or cannot
    happen (spec, section 7). *)
Theorem app1_run_completes (w : widgets) : completes (app1_run L (Ok tt) (Ok tt) w).
Proof.
  unfold app1_run, app1_file_section. simpl lift.
  pose proof (app1_post_completes w). completes_tac.
Qed.

(** C20: Once the two model files have loaded, no input of a run of app2.py,
    image uploads included, raises out of the script. *)
Theorem app2_run_completes (w : widgets) : completes (app2_run L (Ok tt) (Ok tt) w).
Proof.
  unfold app2_run, app2_file_section. simpl lift.
  pose proof (app2_post_completes w). pose proof (app2_image_section_completes w).
  completes_tac.
Qed.

(** C22: A model file that does not load ends the run before anything is
    rendered (the StartupConfigurationError of the spec). *)
Theorem app1_startup_failure (vec_load model_load : result unit) (e : exn) (w : widgets) :
  load_models vec_load model_load = Raise e ->
  app1_run L vec_load model_load w = ([], Raise e).
Proof. intros H. unfold app1_run. rewrite H. reflexivity. Qed.

End Totality.

(** ** What a run renders *)

Lemma fst_seq {A B} (m : ui A) (k : A -> ui B) (a : A) :
  snd m = Ok a -> fst (ui_bind m k) = fst m ++ fst (k a).
Proof. destruct m as [o r]. simpl. intros ->. destruct (k a); reflexivity. Qed.

Lemma completes_fst_seq {B} (m : ui unit) (k : unit -> ui B) :
  completes m -> fst (ui_bind m k) = fst m ++ fst (k tt).
Proof. intros [[] H]. apply fst_seq, H. Qed.

Section Render.
Context {U : UnicodeDB} {F : Type} {V : Vectorizer F} {C : Classifier F} (L : libs).

Lemma forallb_forall_true_fun {A} (l : list A) : forallb (fun _ => true) l = true.
Proof. induction l; auto. Qed.

Lemma predict_lines_spec (ls : list pystr) :
  predict_lines ls = Ok (map (fun l => (l, model_label (clean_text l))) ls).
Proof.
  unfold predict_lines.
  rewrite (map_result_uniform _ (fun l => (l, model_label (clean_text l))) (fun _ => true) TypeError).
  - rewrite forallb_forall_true_fun. reflexivity.
  - intros l. rewrite predict_personality_eqn. reflexivity.
Qed.

(** C23: The single post: a blank text gets a warning and no prediction;
    any other text gets exactly one label, rendered HAPPY or SAD. *)
Theorem app1_post_spec (w : widgets) :
  post_clicked w = true ->
  app1_post w =
  ([Static "markdown: Predict from a Single Post";
    TextArea "Enter a social media post:" (text_input w);
    Button "Predict Personality";
    if strip_nonempty (text_input w)
    then show_label (model_label (clean_text (text_input w)))
    else Warning "Please enter a post."], Ok tt).
Proof.
  intros H. unfold app1_post. rewrite H, predict_personality_eqn.
  destruct (strip_nonempty (text_input w)); reflexivity.
Qed.

Lemma app1_txt_branch_eqn (f : upload) (s : pystr) :
  file_ext f = Ok (py "txt") -> utf8_decode (read_bytes L f) = Ok s ->
  app1_file_branch L f =
  ([Success "Predictions completed.";
    Table (map (fun l => (l, model_label (clean_text l))) (filter strip_nonempty (splitlines s)))],
   Ok tt).
Proof.
  intros He Hd. unfold app1_file_branch. rewrite He. simpl.
  rewrite Hd, predict_lines_spec. reflexivity.
Qed.

(** C24: A [.txt] upload: one row per non-blank line of the decoded text, in
    order, each with the label of its cleaned text. *)
Theorem app1_txt_branch (f : upload) (s : pystr) :
  file_ext f = Ok (py "txt") -> utf8_decode (read_bytes L f) = Ok s ->
  app1_file_branch L f =
  ([Success "Predictions completed.";
    Table (map (fun l => (l, model_label (clean_text l))) (filter strip_nonempty (splitlines s)))],
   Ok tt).
Proof. intros; apply app1_txt_branch_eqn; assumption. Qed.

(** C16: A [.txt] upload end to end, from its bytes to the page: when the
    bytes are the UTF-8 encoding of a text [s] of scalar values, the file
    section of app1.py shows the success message and one row per
    non-blank line of [s], in order, each with the label of its cleaned
    text (the plain-text extractor of the spec, sections 4.3 and 8). *)
Theorem app1_txt_upload (w : widgets) (f : upload) (s : pystr) :
  file w = Some f -> file_ext f = Ok (py "txt") ->
  read_bytes L f = utf8_encode s -> forallb scalar s = true ->
  app1_file_section L w =
  ([Static "markdown: ---"; Static "markdown: Upload a File (.txt, .csv, .docx, .pdf)";
    Uploader "Upload a file:"; Success "Predictions completed.";
    Table (map (fun l => (l, model_label (clean_text l))) (filter strip_nonempty (splitlines s)))],
   Ok tt).
Proof.
  intros Hf He Hb Hs. unfold app1_file_section. rewrite Hf.
  rewrite (app1_txt_branch_eqn f s He) by (rewrite Hb; apply utf8_decode_encode_eqn, Hs).
  reflexivity.
Qed.

End Render.

(** ** Errors, unsupported files, and app.py *)

(** Case analysis on every [match] and [if] of a computed run. *)
Ltac run_cases :=
  repeat (simpl; match goal with
  | |- context [match ?x with Ok _ => _ | Raise _ => _ end] => destruct x
  | |- context [match ?x with Some _ => _ | None => _ end] => destruct x
  | |- context [if ?b then _ else _] => destruct b
  end).

Lemma show_label_cases (l : label) :
  show_label l = Success "Personality Prediction: HAPPY" \/
  show_label l = Error "Personality Prediction: SAD".
Proof. unfold show_label. destruct (String.eqb l "happy"); auto. Qed.

(** A computation that renders nothing before it raises. *)
Definition rclean {A} (m : ui A) : Prop := forall e, snd m = Raise e -> fst m = [].

Lemma rclean_lift_bind {A B} (r : result A) (k : A -> ui B) :
  (forall a, rclean (k a)) -> rclean (ui_bind (lift r) k).
Proof.
  intros Hk. destruct r as [a|e]; simpl; [|intros ? ?; reflexivity].
  specialize (Hk a). destruct (k a) as [o r']. exact Hk.
Qed.

Lemma rclean_ok {A} (m : ui A) (a : A) : snd m = Ok a -> rclean m.
Proof. intros H e He. congruence. Qed.

Ltac rclean_tac :=
  repeat first
    [ apply rclean_lift_bind; intros ?
    | match goal with |- rclean (if ?b then _ else _) => destruct b end
    | match goal with |- rclean (match ?x with _ => _ end) => destruct x end
    | solve [eapply rclean_ok; reflexivity] ].

Section Errors.
Context {U : UnicodeDB} {F : Type} {V : Vectorizer F} {C : Classifier F} (L : libs).

(** [name.split('.')[-1].lower()] is the lower-cased text after the last
    dot: ["Report.PDF"] is handled as ["pdf"]. *)
Theorem file_ext_spec (name e : pystr) (k : nat) :
  ~ In 46 e -> file_ext {| up_name := name ++ 46 :: e; up_id := k |} = Ok (lower e).
Proof. intros H. unfold file_ext. simpl. rewrite split_index_last by exact H. reflexivity. Qed.

(** Inside the [try:] on a file, nothing is rendered before the first
    exception. *)
Lemma app1_file_branch_raise (f : upload) : rclean (app1_file_branch L f).
Proof. unfold app1_file_branch. rclean_tac. Qed.

(** C21: A failing upload shows the section's header and exactly one error
    message naming the exception, with no partial table or success
    message. *)
Theorem app1_file_error (w : widgets) (f : upload) (e : exn) :
  file w = Some f -> snd (app1_file_branch L f) = Raise e ->
  app1_file_section L w =
  ([Static "markdown: ---"; Static "markdown: Upload a File (.txt, .csv, .docx, .pdf)";
    Uploader "Upload a file:"; ErrorExn "Error processing file" e], Ok tt).
Proof.
  intros Hf He. unfold app1_file_section. rewrite Hf. simpl.
  pose proof (app1_file_branch_raise f e He) as R.
  destruct (app1_file_branch L f) as [o r]. simpl in He, R. subst. reflexivity.
Qed.

(** C8: A file whose extension is none of csv, txt, docx, pdf: app1.py says
    so, app2.py renders nothing at all for it. *)
Theorem unsupported_extension (f : upload) (ext : pystr) :
  file_ext f = Ok ext ->
  forallb (fun x => negb (str_eqb ext (py x))) ["csv"; "txt"; "docx"; "pdf"]%string = true ->
  app1_file_branch L f = ([Error "Unsupported file format."], Ok tt) /\
  app2_file_branch L f = ([], Ok tt).
Proof.
  intros He Hx. simpl in Hx. split_bool.
  unfold app1_file_branch, app2_file_branch. rewrite He. simpl.
  repeat match goal with H : str_eqb _ _ = false |- _ => rewrite H; clear H end.
  split; reflexivity.
Qed.

End Errors.

Section App0Props.
Context {U : UnicodeDB} (L : libs).

(** C7: app.py never shows a prediction: [predict_personality] is not
    defined in it, so pressing its button with readable text raises
    [NameError], which its [except] turns into an error message. *)
Theorem app_never_predicts (w : widgets) (l : label) :
  ~ In (show_label l) (fst (app_run L w)).
Proof.
  unfold app_run, app_image_branch.
  destruct (show_label_cases l) as [-> | ->]; run_cases; simpl; intuition discriminate.
Qed.

End App0Props.

(** ** Concrete runs *)

Definition txt_file : upload := {| up_name := py "posts.TXT"; up_id := 1 |}.
Definition md_file : upload := {| up_name := py "notes.md"; up_id := 2 |}.

Definition post_widgets (t : pystr) : widgets :=
  {| text_input := t; post_clicked := true; file := None; image_file := None;
     image_clicked := false |}.

Lemma app1_startup_failure_witness :
  load_models (Raise (LibraryError "FileNotFoundError: vectorizer.pkl")) (Ok tt) =
    Raise (LibraryError "FileNotFoundError: vectorizer.pkl") /\
  @app1_run ascii_db nat TestDouble.count_vectorizer TestDouble.threshold_classifier sample_libs
    (Raise (LibraryError "FileNotFoundError: vectorizer.pkl")) (Ok tt) (post_widgets (py "hi")) =
    ([], Raise (LibraryError "FileNotFoundError: vectorizer.pkl")).
Proof.
  assert (H : load_models (Raise (LibraryError "FileNotFoundError: vectorizer.pkl")) (Ok tt) =
              Raise (LibraryError "FileNotFoundError: vectorizer.pkl")) by reflexivity.
  split; [exact H | apply (app1_startup_failure sample_libs _ _ _ _ H)].
Defined.

Lemma app1_post_spec_witness :
  post_clicked (post_widgets (py "I am SO happy!!")) = true /\
  @app1_post ascii_db nat TestDouble.count_vectorizer TestDouble.threshold_classifier
    (post_widgets (py "I am SO happy!!")) =
  ([Static "markdown: Predict from a Single Post";
    TextArea "Enter a social media post:" (py "I am SO happy!!");
    Button "Predict Personality";
    if strip_nonempty (py "I am SO happy!!")
    then show_label (@model_label (@artifacts_model nat TestDouble.count_vectorizer
           TestDouble.threshold_classifier) (@clean_text ascii_db (py "I am SO happy!!")))
    else Warning "Please enter a post."], Ok tt).
Proof.
  split; [reflexivity | apply (@app1_post_spec ascii_db nat), eq_refl].
Defined.

Lemma app1_txt_branch_witness :
  @file_ext ascii_db txt_file = Ok (py "txt") /\
  utf8_decode (read_bytes sample_libs txt_file) = Ok sample_txt /\
  @app1_file_branch ascii_db nat TestDouble.count_vectorizer TestDouble.threshold_classifier
    sample_libs txt_file =
  ([Success "Predictions completed.";
    Table (map (fun l => (l, @model_label (@artifacts_model nat TestDouble.count_vectorizer
             TestDouble.threshold_classifier) (@clean_text ascii_db l)))
           (filter strip_nonempty (splitlines sample_txt)))], Ok tt).
Proof.
  assert (H1 : @file_ext ascii_db txt_file = Ok (py "txt")) by (vm_compute; reflexivity).
  assert (H2 : utf8_decode (read_bytes sample_libs txt_file) = Ok sample_txt) by (vm_compute; reflexivity).
  split; [exact H1 | split; [exact H2 | apply (@app1_txt_branch ascii_db nat _ _ sample_libs _ _ H1 H2)]].
Defined.

Lemma file_ext_spec_witness :
  ~ In 46 (py "PDF") /\
  @file_ext ascii_db {| up_name := py "Report" ++ 46 :: py "PDF"; up_id := 3 |} = Ok (py "pdf").
Proof.
  assert (H : ~ In 46 (py "PDF")) by (simpl; lia).
  split; [exact H|]. rewrite (@file_ext_spec ascii_db _ _ 3 H). reflexivity.
Defined.

Definition csv_file : upload := {| up_name := py "data.csv"; up_id := 0 |}.
Definition csv_widgets : widgets :=
  {| text_input := []; post_clicked := false; file := Some csv_file;
     image_file := None; image_clicked := false |}.

Lemma app1_file_error_witness :
  file csv_widgets = Some csv_file /\
  snd (@app1_file_branch ascii_db nat TestDouble.count_vectorizer TestDouble.threshold_classifier
         sample_libs csv_file) = Raise (LibraryError "no csv") /\
  @app1_file_section ascii_db nat TestDouble.count_vectorizer TestDouble.threshold_classifier
    sample_libs csv_widgets =
  ([Static "markdown: ---"; Static "markdown: Upload a File (.txt, .csv, .docx, .pdf)";
    Uploader "Upload a file:"; ErrorExn "Error processing file" (LibraryError "no csv")], Ok tt).
Proof.
  assert (H : snd (@app1_file_branch ascii_db nat TestDouble.count_vectorizer
    TestDouble.threshold_classifier sample_libs csv_file) =
    Raise (LibraryError "no csv")) by (vm_compute; reflexivity).
  split; [reflexivity | split; [exact H|]].
  apply (@app1_file_error ascii_db nat _ _ sample_libs csv_widgets csv_file _ eq_refl H).
Defined.

Lemma unsupported_extension_witness :
  @file_ext ascii_db md_file = Ok (py "md") /\
  forallb (fun x => negb (str_eqb (py "md") (py x))) ["csv"; "txt"; "docx"; "pdf"]%string = true /\
  @app1_file_branch ascii_db nat TestDouble.count_vectorizer TestDouble.threshold_classifier
    sample_libs md_file = ([Error "Unsupported file format."], Ok tt) /\
  @app2_file_branch ascii_db nat TestDouble.count_vectorizer TestDouble.threshold_classifier
    sample_libs md_file = ([], Ok tt).
Proof.
  assert (H1 : @file_ext ascii_db md_file = Ok (py "md")) by (vm_compute; reflexivity).
  assert (H2 : forallb (fun x => negb (str_eqb (py "md") (py x)))
                 ["csv"; "txt"; "docx"; "pdf"]%string = true) by reflexivity.
  split; [exact H1 | split; [exact H2 | apply (@unsupported_extension ascii_db nat _ _ sample_libs _ _ H1 H2)]].
Defined.

(** Parsers whose OCR reads a post off the screenshot. *)
Definition screenshot_libs : libs := {|
  docx_Document := docx_Document sample_libs;
  PdfReader := PdfReader sample_libs;
  read_csv := read_csv sample_libs;
  read_bytes := read_bytes sample_libs;
  Image_open := Image_open sample_libs;
  tesseract_found := tesseract_found sample_libs;
  ocr _ := Ok (py "I am so happy")
|}.

(** app.py with a readable screenshot and its button pressed: the
    [NameError] message instead of a prediction. *)
Example app_name_error :
  fst (app_run screenshot_libs
         {| text_input := []; post_clicked := false; file := None;
            image_file := Some sample_file; image_clicked := true |})
  = [Static "markdown: Upload an Image with Text (Screenshot of Post)";
     Uploader "Upload an image (PNG or JPG):"; ShowImage;
     Static "markdown: Extracted Text from Image:";
     TextArea "Text found in image:" (py "I am so happy");
     Button "Predict Personality from Image Text";
     ErrorExn "Error reading image" (NameError "predict_personality")].
Proof. reflexivity. Qed.

(** ** app1.py and app2.py agree *)

Section Agreement.
Context {U : UnicodeDB} {F : Type} {V : Vectorizer F} {C : Classifier F} (L : libs).

(** C25: The single-post sections of the two scripts differ only in wording:
    on every input they take the same branch, predict the same label and
    raise the same way. *)
Theorem app2_post_app1 (w : widgets) :
  app2_post w = ui_map_elems to_app2 (app1_post w).
Proof.
  unfold app2_post, app1_post. rewrite predict_personality_eqn.
  destruct (post_clicked w); [|reflexivity].
  destruct (strip_nonempty (text_input w)); simpl; [|reflexivity].
  unfold show_label. destruct (String.eqb _ "happy"); reflexivity.
Qed.

(** C10: The file branches agree on every upload: app2.py renders what
    app1.py renders, with the CSV message reworded and without the
    report of an unsupported format. *)
Theorem app2_file_branch_app1 (f : upload) :
  app2_file_branch L f = ui_map_elems to_app2 (app1_file_branch L f).
Proof. unfold app2_file_branch, app1_file_branch. run_cases; reflexivity. Qed.

End Agreement.

(** The spec's plain-text example "hello\n\nworld\n" (section 8), uploaded
    as a [.txt] file. *)
Definition hello_world : pystr := py "hello" ++ [10; 10] ++ py "world" ++ [10].

Definition txt_libs : libs := {|
  docx_Document := docx_Document sample_libs;
  PdfReader := PdfReader sample_libs;
  read_csv := read_csv sample_libs;
  read_bytes _ := utf8_encode hello_world;
  Image_open := Image_open sample_libs;
  tesseract_found := tesseract_found sample_libs;
  ocr := ocr sample_libs
|}.

Definition txt_widgets : widgets :=
  {| text_input := []; post_clicked := false; file := Some txt_file;
     image_file := None; image_clicked := false |}.

Lemma app1_txt_upload_witness :
  file txt_widgets = Some txt_file /\ @file_ext ascii_db txt_file = Ok (py "txt") /\
  read_bytes txt_libs txt_file = utf8_encode hello_world /\ forallb scalar hello_world = true /\
  filter strip_nonempty (splitlines hello_world) = [py "hello"; py "world"] /\
  @app1_file_section ascii_db nat TestDouble.count_vectorizer TestDouble.threshold_classifier
    txt_libs txt_widgets =
  ([Static "markdown: ---"; Static "markdown: Upload a File (.txt, .csv, .docx, .pdf)";
    Uploader "Upload a file:"; Success "Predictions completed.";
    Table (map (fun l => (l, @model_label (@artifacts_model nat TestDouble.count_vectorizer
                  TestDouble.threshold_classifier) (@clean_text ascii_db l)))
             (filter strip_nonempty (splitlines hello_world)))], Ok tt).
Proof.
  assert (H1 : file txt_widgets = Some txt_file) by reflexivity.
  assert (H2 : @file_ext ascii_db txt_file = Ok (py "txt")) by reflexivity.
  assert (H3 : read_bytes txt_libs txt_file = utf8_encode hello_world) by reflexivity.
  assert (H4 : forallb scalar hello_world = true) by reflexivity.
  assert (H5 : filter strip_nonempty (splitlines hello_world) = [py "hello"; py "world"])
    by reflexivity.
  exact (conj H1 (conj H2 (conj H3 (conj H4 (conj H5
    (@app1_txt_upload ascii_db nat _ _ txt_libs _ _ _ H1 H2 H3 H4)))))).
Defined.
