(* ===== verification/Session.v ===== *)
(** * A Streamlit session: one rerun of the script per interaction

    Streamlit reruns the whole script on every interaction.  Widgets keep
    their values across reruns (the text typed in [st.text_area], the
    files of [st.file_uploader]); a [st.button] is [True] only in the
    rerun its press triggers.  A session is therefore a sequence of
    interactions, each a step from the kept widget state to the next one
    and one run of the script ([app1_run] or [app2_run]) on the widget
    values of that step, with the artifact files as they are at that
    moment (the [pickle.load] blocks run again in every rerun).

    The session is given twice: as the executable [session] and as the
    step relation [reach], with the theorem that every page [session]
    produces is reachable.  The invariants are proved by rule induction
    on [reach]; liveness is the inductive [leads] (some interactions
    reach a page with a property), characterised by [session]. *)

From Stdlib Require Import String List NArith Lia Bool.
From S2P Require Import Prelude PyChar PyStr Utf8 Regex Clean Predict Extract App.
Import ListNotations.

(** ** Interactions and the kept widget state *)

Inductive event :=
  | EOpen                          (** the page is opened or refreshed: a new session *)
  | EType (t : pystr)              (** the post's text area is edited *)
  | EPress                         (** the post's predict button *)
  | EFile (f : option upload)      (** a document is uploaded or removed *)
  | EImage (f : option upload)     (** an image is uploaded or removed *)
  | EPressImage.                   (** the image's predict button *)

Record sstate := {
  s_text : pystr;
  s_file : option upload;
  s_image : option upload
}.

Definition init : sstate := {| s_text := []; s_file := None; s_image := None |}.

Definition is_press (e : event) : bool := match e with EPress => true | _ => false end.
Definition is_press_image (e : event) : bool :=
  match e with EPressImage => true | _ => false end.

(** The widget state after [e], and the values the widget calls of the
    rerun return: the kept values, and [True] for the pressed button.
    Opening or refreshing the page starts a new session, whose widgets
    have their default values. *)
Definition react (s : sstate) (e : event) : sstate * widgets :=
  let s' :=
    match e with
    | EOpen => init
    | EType t => {| s_text := t; s_file := s_file s; s_image := s_image s |}
    | EFile f => {| s_text := s_text s; s_file := f; s_image := s_image s |}
    | EImage f => {| s_text := s_text s; s_file := s_file s; s_image := f |}
    | EPress | EPressImage => s
    end in
  (s', {| text_input := s_text s'; post_clicked := is_press e; file := s_file s';
          image_file := s_image s'; image_clicked := is_press_image e |}).

(** The state of the two artifact files at an interaction: the results of
    the two [pickle.load] blocks. *)
Definition loads := (result unit * result unit)%type.

Section Session.
(** The script a session reruns. *)
Variable run : result unit -> result unit -> widgets -> ui unit.

(** The pages of a session: one per interaction. *)
Fixpoint session (s : sstate) (evs : list (event * loads)) : list (list elem) :=
  match evs with
  | [] => []
  | (e, (vl, ml)) :: rest =>
      let (s', w) := react s e in fst (run vl ml w) :: session s' rest
  end.

(** The step relation: a widget state, the last interaction, the page on
    screen. *)
Inductive reach : sstate -> option event -> list elem -> Prop :=
  | reach_init : reach init None []
  | reach_step s le p e vl ml :
      reach s le p ->
      reach (fst (react s e)) (Some e) (fst (run vl ml (snd (react s e)))).

End Session.

(** The widget state after a sequence of interactions. *)
Fixpoint after (s : sstate) (evs : list (event * loads)) : sstate :=
  match evs with
  | [] => s
  | (e, _) :: rest => after (fst (react s e)) rest
  end.

(** The interactions that leave the post's text area as it is: all but
    editing it and reloading the page. *)
Definition keeps_text (e : event) : bool :=
  match e with EType _ | EOpen => false | _ => true end.

(** Both artifact files load. *)
Definition loaded : loads := (Ok tt, Ok tt).

(** * Properties *)

(** ** What a page is made of *)

Lemma in_fst_bind {A B} (m : ui A) (k : A -> ui B) (x : elem) :
  In x (fst (ui_bind m k)) -> In x (fst m) \/ exists a, In x (fst (k a)).
Proof.
  destruct m as [o [a|e]]; simpl; [|auto].
  destruct (k a) as [o2 r] eqn:E. simpl. rewrite in_app_iff.
  intros [H|H]; [left; exact H | right; exists a; rewrite E; exact H].
Qed.

Lemma in_fst_bind_lift {A B} (r : result A) (k : A -> ui B) (x : elem) :
  In x (fst (ui_bind (lift r) k)) -> exists a, r = Ok a /\ In x (fst (k a)).
Proof.
  destruct r as [a|e]; simpl; [|contradiction].
  intros H. exists a. split; [reflexivity|]. destruct (k a). exact H.
Qed.

Lemma in_fst_try (m : ui unit) (h : exn -> ui unit) (x : elem) :
  In x (fst (try_except m h)) -> In x (fst m) \/ exists e, In x (fst (h e)).
Proof.
  destruct m as [o [a|e]]; simpl; [auto|].
  destruct (h e) as [o2 r] eqn:E. simpl. rewrite in_app_iff.
  intros [H|H]; [left; exact H | right; exists e; rewrite E; exact H].
Qed.

Lemma in_fst_bind_l {A B} (m : ui A) (k : A -> ui B) (x : elem) :
  In x (fst m) -> In x (fst (ui_bind m k)).
Proof.
  destruct m as [o [a|e]]; simpl; [|auto].
  destruct (k a) as [o2 r]. simpl. intros H. apply in_or_app. auto.
Qed.

Lemma in_fst_bind_r {A B} (m : ui A) (k : A -> ui B) (a : A) (x : elem) :
  snd m = Ok a -> In x (fst (k a)) -> In x (fst (ui_bind m k)).
Proof.
  destruct m as [o r]. simpl. intros -> H.
  destruct (k a) as [o2 r']. simpl in *. apply in_or_app. auto.
Qed.

(** Split a hypothesis [In x (fst run)] into one case per element the run
    can render, and discharge the cases whose element is not [x]. *)
Ltac in_parts H :=
  repeat first
    [ apply in_fst_bind_lift in H; destruct H as [? [?Heq H]]; simpl in Heq
    | apply in_fst_bind in H; destruct H as [H | [? H]]
    | apply in_fst_try in H; destruct H as [H | [? H]]
    | match type of H with context [if ?b then _ else _] => destruct b end
    | match type of H with context [match ?x with _ => _ end] => destruct x end
    | progress (simpl in H) ];
  try contradiction; try discriminate; try (destruct H as [H|[]]; discriminate H).

(** The label of the post or of an image is rendered only in a rerun in
    which its button is [True]. *)
Section NoPress.
Context {U : UnicodeDB} {F : Type} {V : Vectorizer F} {C : Classifier F} (L : libs).

Lemma app1_run_no_press (vl ml : result unit) (w : widgets) (l : label) :
  post_clicked w = false -> ~ In (show_label l) (fst (app1_run L vl ml w)).
Proof.
  intros Hc H. unfold app1_run, app1_post, app1_file_section, app1_file_branch in H.
  rewrite Hc in H. destruct (show_label_cases l) as [E|E]; rewrite E in H; in_parts H.
Qed.

Lemma app2_run_no_press (vl ml : result unit) (w : widgets) (l : label) :
  post_clicked w = false -> image_clicked w = false ->
  ~ In (show_label l) (fst (app2_run L vl ml w)).
Proof.
  intros Hc Hi H.
  unfold app2_run, app2_post, app2_file_section, app2_file_branch,
    app2_image_section, app2_image_branch in H.
  rewrite Hc, Hi in H. destruct (show_label_cases l) as [E|E]; rewrite E in H; in_parts H.
Qed.

(** Without a program at app2.py's OCR path, the image section never
    renders a label: [image_to_string] raises before the button is read. *)
Lemma app2_run_no_ocr (vl ml : result unit) (w : widgets) (l : label) :
  tesseract_found L app2_tesseract_cmd = false -> post_clicked w = false ->
  ~ In (show_label l) (fst (app2_run L vl ml w)).
Proof.
  intros Ht Hc H.
  unfold app2_run, app2_post, app2_file_section, app2_file_branch,
    app2_image_section, app2_image_branch, image_to_string in H.
  rewrite Hc, Ht in H. destruct (show_label_cases l) as [E|E]; rewrite E in H; in_parts H.
Qed.

(** A run whose models do not load renders nothing. *)
Lemma app1_run_unloaded (vl ml : result unit) (w : widgets) (e : exn) :
  load_models vl ml = Raise e -> fst (app1_run L vl ml w) = [].
Proof. intros H. unfold app1_run. rewrite H. reflexivity. Qed.

Lemma app2_run_unloaded (vl ml : result unit) (w : widgets) (e : exn) :
  load_models vl ml = Raise e -> fst (app2_run L vl ml w) = [].
Proof. intros H. unfold app2_run. rewrite H. reflexivity. Qed.
End NoPress.

(** ** The session and its step relation *)

Section SessionProps.
Variable run : result unit -> result unit -> widgets -> ui unit.

(** The last step of a reachable page. *)
Lemma reach_last (s : sstate) (le : option event) (p : list elem) :
  reach run s le p ->
  (le = None /\ p = []) \/
  exists s0 e vl ml, le = Some e /\ p = fst (run vl ml (snd (react s0 e))).
Proof. intros H. inversion H; subst; [left; auto | right; eauto 6]. Qed.

Lemma react_widgets (s : sstate) (e : event) :
  post_clicked (snd (react s e)) = is_press e /\
  image_clicked (snd (react s e)) = is_press_image e.
Proof. destruct e; split; reflexivity. Qed.

(** [session] implements the step relation: every page it shows, after
    any interactions from any reachable state, is reachable. *)
Lemma session_reach_from (s : sstate) (le : option event) (p : list elem)
    (evs : list (event * loads)) :
  reach run s le p -> Forall (fun q => exists s' le', reach run s' le' q) (session run s evs).
Proof.
  revert s le p. induction evs as [|[e [vl ml]] evs IH]; intros s le p H; [constructor|].
  cbn [session]. pose proof (reach_step run s le p e vl ml H) as H'.
  destruct (react s e) as [s' w] eqn:E. simpl in H'. constructor; [eauto | exact (IH _ _ _ H')].
Qed.

(** The page of interaction [i] depends on the artifact files at that
    interaction: they are loaded again in every rerun. *)
Lemma session_nth (s : sstate) (evs : list (event * loads)) (i : nat) (e : event) (ld : loads) :
  nth_error evs i = Some (e, ld) ->
  exists s0, nth_error (session run s evs) i = Some (fst (run (fst ld) (snd ld) (snd (react s0 e)))).
Proof.
  revert s i. induction evs as [|[e' [vl ml]] evs IH]; intros s [|i] H; try discriminate H.
  - injection H as <- <-. exists s. cbn [session nth_error]. destruct (react s e'); reflexivity.
  - simpl in H. destruct (IH (fst (react s e')) i H) as [s0 Hs0]. exists s0.
    cbn [session nth_error]. destruct (react s e') as [s' w]. exact Hs0.
Qed.

Lemma session_app (s : sstate) (evs1 evs2 : list (event * loads)) :
  session run s (evs1 ++ evs2) = session run s evs1 ++ session run (after s evs1) evs2.
Proof.
  revert s. induction evs1 as [|[e [vl ml]] evs1 IH]; intros s; [reflexivity|].
  cbn [app session after]. destruct (react s e) as [s' w]. simpl. f_equal. apply IH.
Qed.

Lemma session_one (s : sstate) (e : event) (vl ml : result unit) :
  session run s [(e, (vl, ml))] = [fst (run vl ml (snd (react s e)))].
Proof. cbn [session]. destruct (react s e); reflexivity. Qed.

(** Interactions that neither edit the post nor reload the page keep its
    text. *)
Lemma after_text (s : sstate) (evs : list (event * loads)) :
  forallb (fun el => keeps_text (fst el)) evs = true -> s_text (after s evs) = s_text s.
Proof.
  revert s. induction evs as [|[e ld] evs IH]; intros s H; [reflexivity|].
  simpl in H. apply andb_prop in H as [He H]. simpl. rewrite IH by exact H.
  destruct e; try discriminate He; reflexivity.
Qed.
End SessionProps.

(** ** What a user can still reach

    [leads run P s]: from the widget state [s], some interactions at which
    both model files load end on a page that satisfies [P]; the
    [eventually] of a step relation whose next states are those of the
    interactions. *)

Section Liveness.
Variable run : result unit -> result unit -> widgets -> ui unit.

Inductive leads (P : list elem -> Prop) : sstate -> Prop :=
  | leads_now s e : P (fst (run (Ok tt) (Ok tt) (snd (react s e)))) -> leads P s
  | leads_step s e : leads P (fst (react s e)) -> leads P s.

Definition with_loaded (evs : list event) : list (event * loads) :=
  map (fun e => (e, loaded)) evs.

(** [leads] is what the executable session can show: some page of some
    session from [s] satisfies [P]. *)
Lemma leads_session (P : list elem -> Prop) (s : sstate) :
  leads P s <-> exists evs, Exists P (session run s (with_loaded evs)).
Proof.
  split.
  - induction 1 as [s e H | s e _ [evs IH]].
    + exists [e]. cbn [with_loaded map session]. destruct (react s e). now constructor.
    + exists (e :: evs). cbn [with_loaded map session]. destruct (react s e) as [s' w].
      now apply Exists_cons_tl.
  - intros [evs H]. revert s H. induction evs as [|e evs IH]; intros s H;
      cbn [with_loaded map session] in H; [inversion H|].
    destruct (react s e) as [s' w] eqn:E. inversion H; subst.
    + apply (leads_now _ s e). now rewrite E.
    + apply (leads_step _ s e). rewrite E. now apply IH.
Qed.
End Liveness.

(** ** Sessions of app1.py and app2.py *)

Section Claims.
Context {U : UnicodeDB} {F : Type} {V : Vectorizer F} {C : Classifier F} (L : libs).

(** In a rerun in which the post's button is pressed with a non-blank
    text and the models load, the page shows the label of that text. *)
Lemma app1_run_pressed (w : widgets) :
  post_clicked w = true -> strip_nonempty (text_input w) = true ->
  In (show_label (model_label (clean_text (text_input w))))
     (fst (app1_run L (Ok tt) (Ok tt) w)).
Proof.
  intros Hc Hs. unfold app1_run.
  apply (in_fst_bind_r _ _ tt); [reflexivity|].
  apply (in_fst_bind_r _ _ tt); [reflexivity|].
  apply in_fst_bind_l. unfold app1_post. rewrite Hc, Hs, predict_personality_eqn.
  simpl. auto.
Qed.

Lemma app2_run_pressed (w : widgets) :
  post_clicked w = true -> strip_nonempty (text_input w) = true ->
  In (show_label (model_label (clean_text (text_input w))))
     (fst (app2_run L (Ok tt) (Ok tt) w)).
Proof.
  intros Hc Hs. unfold app2_run.
  apply (in_fst_bind_r _ _ tt); [reflexivity|].
  apply (in_fst_bind_r _ _ tt); [reflexivity|].
  apply in_fst_bind_l. unfold app2_post. rewrite Hc, Hs, predict_personality_eqn.
  simpl. auto.
Qed.

(** C11: app1.py shows a prediction only on the page of a press of its
    button: the button is [True] in that rerun only. *)
Theorem app1_prediction_needs_press (s : sstate) (le : option event) (p : list elem) (l : label) :
  reach (app1_run L) s le p -> In (show_label l) p -> le = Some EPress.
Proof.
  intros H Hin. destruct (reach_last _ _ _ _ H) as [[-> ->] | (s0 & e & vl & ml & -> & ->)];
    [destruct Hin|].
  destruct e; try reflexivity; apply (app1_run_no_press L vl ml _ l) in Hin; easy.
Qed.

(** C26: app2.py shows a prediction only on the page of a press of one of its
    two buttons. *)
Theorem app2_prediction_needs_press (s : sstate) (le : option event) (p : list elem) (l : label) :
  reach (app2_run L) s le p -> In (show_label l) p -> le = Some EPress \/ le = Some EPressImage.
Proof.
  intros H Hin. destruct (reach_last _ _ _ _ H) as [[-> ->] | (s0 & e & vl & ml & -> & ->)];
    [destruct Hin|].
  destruct e; auto; apply (app2_run_no_press L vl ml _ l) in Hin; easy.
Qed.

(** C27: The text area keeps its value across reruns: after typing [t],
    any interactions that neither edit the post nor reload the page, then
    a press, show the label of [t]. *)
Theorem app1_press_predicts_typed (s : sstate) (t : pystr) (evs : list (event * loads)) :
  forallb (fun el => keeps_text (fst el)) evs = true -> strip_nonempty t = true ->
  In (show_label (model_label (clean_text t)))
     (last (session (app1_run L) s ((EType t, loaded) :: evs ++ [(EPress, loaded)])) []).
Proof.
  intros Hevs Ht.
  change ((EType t, loaded) :: evs ++ [(EPress, loaded)])
    with (((EType t, loaded) :: evs) ++ [(EPress, loaded)]).
  unfold loaded. rewrite session_app, session_one, last_last.
  set (s1 := after s ((EType t, (Ok tt, Ok tt)) :: evs)).
  assert (Hs : s_text s1 = t) by exact (after_text (fst (react s (EType t))) evs Hevs).
  pose proof (app1_run_pressed (snd (react s1 EPress)) eq_refl) as P.
  change (text_input (snd (react s1 EPress))) with (s_text s1) in P.
  rewrite Hs in P. exact (P Ht).
Qed.
(** C14: Liveness of the single post: from any widget state, typing a
    non-blank text [t] and pressing the button, with the model files in
    place, reaches a page with the label of [t]. *)
Theorem app1_prediction_live (s : sstate) (t : pystr) :
  strip_nonempty t = true ->
  leads (app1_run L) (In (show_label (model_label (clean_text t)))) s.
Proof.
  intros Ht. apply (leads_step _ _ s (EType t)), (leads_now _ _ _ EPress).
  exact (app1_run_pressed (snd (react (fst (react s (EType t))) EPress)) eq_refl Ht).
Qed.

Lemma in_fst_seq_r {B} (m : ui unit) (k : unit -> ui B) (x : elem) :
  completes m -> In x (fst (k tt)) -> In x (fst (ui_bind m k)).
Proof. intros [[] Ha] H. exact (in_fst_bind_r m k tt x Ha H). Qed.

Lemma app2_file_section_completes (w : widgets) : completes (app2_file_section L w).
Proof. unfold app2_file_section. completes_tac. Qed.

(** The image section of a rerun with a pressed image button, an image that
    opens and an OCR program that reads a non-blank text [t]. *)
Lemma app2_image_section_pressed (w : widgets) (f : upload) (img : image) (t : pystr) :
  image_file w = Some f -> image_clicked w = true -> Image_open L f = Ok img ->
  tesseract_found L app2_tesseract_cmd = true -> ocr L img = Ok t -> strip_nonempty t = true ->
  In (show_label (model_label (clean_text t))) (fst (app2_image_section L w)).
Proof.
  intros Hf Hc Hi Ht Ho Hs.
  unfold app2_image_section, app2_image_branch, image_to_string.
  rewrite Hf, Hi. simpl. rewrite Ht, Ho. simpl.
  rewrite Hc, Hs, predict_personality_eqn. simpl. auto 10.
Qed.

Lemma app2_run_image_pressed (w : widgets) (f : upload) (img : image) (t : pystr) :
  image_file w = Some f -> image_clicked w = true -> Image_open L f = Ok img ->
  tesseract_found L app2_tesseract_cmd = true -> ocr L img = Ok t -> strip_nonempty t = true ->
  In (show_label (model_label (clean_text t))) (fst (app2_run L (Ok tt) (Ok tt) w)).
Proof.
  intros. unfold app2_run.
  apply (in_fst_bind_r _ _ tt); [reflexivity|].
  apply (in_fst_bind_r _ _ tt); [reflexivity|].
  apply in_fst_seq_r; [apply app2_post_completes|].
  apply in_fst_seq_r; [apply app2_file_section_completes|].
  apply in_fst_bind_l. eapply app2_image_section_pressed; eauto.
Qed.

(** C17: Liveness of the image flow where app2.py's OCR path exists: from
    any widget state, uploading an image that opens and whose OCR text
    [t] is not blank, then pressing the image's button, with the model
    files in place, reaches a page with the label of [t]. *)
Theorem app2_image_live (s : sstate) (f : upload) (img : image) (t : pystr) :
  Image_open L f = Ok img -> tesseract_found L app2_tesseract_cmd = true ->
  ocr L img = Ok t -> strip_nonempty t = true ->
  leads (app2_run L) (In (show_label (model_label (clean_text t)))) s.
Proof.
  intros Hi Ht Ho Hs. apply (leads_step _ _ s (EImage (Some f))), (leads_now _ _ _ EPressImage).
  exact (app2_run_image_pressed (snd (react (fst (react s (EImage (Some f)))) EPressImage))
           f img t eq_refl eq_refl Hi Ht Ho Hs).
Qed.

(** C15: app2.py hard-codes a Windows path for the OCR program: on a system
    whose only tesseract is pytesseract's default [tesseract] on the
    PATH, a session of app2.py never shows the prediction of an image;
    every label on screen is on the page of a press of the post's
    button. *)
Theorem app2_ocr_windows_only (s : sstate) (le : option event) (p : list elem) (l : label) :
  (forall c, tesseract_found L c = true -> c = default_tesseract_cmd) ->
  reach (app2_run L) s le p -> In (show_label l) p -> le = Some EPress.
Proof.
  intros Hf H Hin.
  assert (Ht : tesseract_found L app2_tesseract_cmd = false).
  { destruct (tesseract_found L app2_tesseract_cmd) eqn:E; [|reflexivity].
    apply Hf in E. vm_compute in E. discriminate E. }
  destruct (reach_last _ _ _ _ H) as [[-> ->] | (s0 & e & vl & ml & -> & ->)]; [destruct Hin|].
  destruct e; try reflexivity; apply (app2_run_no_ocr L vl ml _ l Ht) in Hin; easy.
Qed.
End Claims.

(** ** Witnesses *)

#[local] Abbreviation demo_app1 :=
  (@app1_run ascii_db nat TestDouble.count_vectorizer TestDouble.threshold_classifier sample_libs).
#[local] Abbreviation demo_app2 :=
  (@app2_run ascii_db nat TestDouble.count_vectorizer TestDouble.threshold_classifier sample_libs).
#[local] Abbreviation demo_label :=
  (@model_label (@artifacts_model nat TestDouble.count_vectorizer TestDouble.threshold_classifier)).

Lemma app1_prediction_needs_press_witness :
  let s1 := fst (react init (EType (py "I am so happy"))) in
  reach demo_app1 (fst (react s1 EPress)) (Some EPress)
    (fst (demo_app1 (Ok tt) (Ok tt) (snd (react s1 EPress)))) /\
  In (show_label "happy"%string) (fst (demo_app1 (Ok tt) (Ok tt) (snd (react s1 EPress)))) /\
  Some EPress = Some EPress.
Proof.
  intros s1.
  assert (R : reach demo_app1 (fst (react s1 EPress)) (Some EPress)
                (fst (demo_app1 (Ok tt) (Ok tt) (snd (react s1 EPress))))).
  { apply reach_step with (le := Some (EType (py "I am so happy")))
      (p := fst (demo_app1 (Ok tt) (Ok tt) (snd (react init (EType (py "I am so happy")))))).
    apply reach_step with (le := None) (p := []). constructor. }
  assert (I : In (show_label "happy"%string) (fst (demo_app1 (Ok tt) (Ok tt) (snd (react s1 EPress))))).
  { pose proof (@app1_run_pressed ascii_db nat TestDouble.count_vectorizer
      TestDouble.threshold_classifier sample_libs (snd (react s1 EPress)) eq_refl eq_refl) as P.
    assert (E : demo_label (@clean_text ascii_db (text_input (snd (react s1 EPress))))
                = "happy"%string) by (vm_compute; reflexivity).
    rewrite E in P. exact P. }
  exact (conj R (conj I (app1_prediction_needs_press _ _ _ _ _ R I))).
Defined.

Lemma app2_prediction_needs_press_witness :
  let s1 := fst (react init (EType (py "I am so happy"))) in
  reach demo_app2 (fst (react s1 EPress)) (Some EPress)
    (fst (demo_app2 (Ok tt) (Ok tt) (snd (react s1 EPress)))) /\
  In (show_label "happy"%string) (fst (demo_app2 (Ok tt) (Ok tt) (snd (react s1 EPress)))) /\
  (Some EPress = Some EPress \/ Some EPress = Some EPressImage).
Proof.
  intros s1.
  assert (R : reach demo_app2 (fst (react s1 EPress)) (Some EPress)
                (fst (demo_app2 (Ok tt) (Ok tt) (snd (react s1 EPress))))).
  { apply reach_step with (le := Some (EType (py "I am so happy")))
      (p := fst (demo_app2 (Ok tt) (Ok tt) (snd (react init (EType (py "I am so happy")))))).
    apply reach_step with (le := None) (p := []). constructor. }
  assert (I : In (show_label "happy"%string) (fst (demo_app2 (Ok tt) (Ok tt) (snd (react s1 EPress))))).
  { pose proof (@app2_run_pressed ascii_db nat TestDouble.count_vectorizer
      TestDouble.threshold_classifier sample_libs (snd (react s1 EPress)) eq_refl eq_refl) as P.
    assert (E : demo_label (@clean_text ascii_db (text_input (snd (react s1 EPress))))
                = "happy"%string) by (vm_compute; reflexivity).
    rewrite E in P. exact P. }
  exact (conj R (conj I (app2_prediction_needs_press _ _ _ _ _ R I))).
Defined.

Lemma app1_press_predicts_typed_witness :
  forallb (fun el => keeps_text (fst el)) [(EFile None, loaded); (EImage None, loaded)] = true /\
  strip_nonempty (py "I am so happy") = true /\
  In (show_label (demo_label (@clean_text ascii_db (py "I am so happy"))))
     (last (session demo_app1 init ((EType (py "I am so happy"), loaded)
             :: [(EFile None, loaded); (EImage None, loaded)] ++ [(EPress, loaded)])) []).
Proof.
  assert (H1 : forallb (fun el => keeps_text (fst el))
                 [(EFile None, loaded); (EImage None, loaded)] = true) by reflexivity.
  assert (H2 : strip_nonempty (py "I am so happy") = true) by reflexivity.
  exact (conj H1 (conj H2 (app1_press_predicts_typed _ _ _ _ H1 H2))).
Defined.

Lemma app1_prediction_live_witness :
  strip_nonempty (py "I am so happy") = true /\
  leads demo_app1 (In (show_label (demo_label (@clean_text ascii_db (py "I am so happy"))))) init.
Proof.
  assert (H : strip_nonempty (py "I am so happy") = true) by reflexivity.
  exact (conj H (app1_prediction_live sample_libs init _ H)).
Defined.

(** A system where only [tesseract] on the PATH runs. *)
Definition linux_libs : libs := {|
  docx_Document := docx_Document sample_libs;
  PdfReader := PdfReader sample_libs;
  read_csv := read_csv sample_libs;
  read_bytes := read_bytes sample_libs;
  Image_open := Image_open sample_libs;
  tesseract_found c := str_eqb c default_tesseract_cmd;
  ocr _ := Ok (py "I am so happy")
|}.

#[local] Abbreviation linux_app2 :=
  (@app2_run ascii_db nat TestDouble.count_vectorizer TestDouble.threshold_classifier linux_libs).

Lemma app2_ocr_windows_only_witness :
  let s1 := fst (react init (EType (py "I am so happy"))) in
  (forall c, tesseract_found linux_libs c = true -> c = default_tesseract_cmd) /\
  reach linux_app2 (fst (react s1 EPress)) (Some EPress)
    (fst (linux_app2 (Ok tt) (Ok tt) (snd (react s1 EPress)))) /\
  In (show_label "happy"%string) (fst (linux_app2 (Ok tt) (Ok tt) (snd (react s1 EPress)))) /\
  Some EPress = Some EPress.
Proof.
  intros s1.
  assert (T : forall c, tesseract_found linux_libs c = true -> c = default_tesseract_cmd)
    by exact (fun c H => proj1 (str_eqb_eq c default_tesseract_cmd) H).
  assert (R : reach linux_app2 (fst (react s1 EPress)) (Some EPress)
                (fst (linux_app2 (Ok tt) (Ok tt) (snd (react s1 EPress))))).
  { apply reach_step with (le := Some (EType (py "I am so happy")))
      (p := fst (linux_app2 (Ok tt) (Ok tt) (snd (react init (EType (py "I am so happy")))))).
    apply reach_step with (le := None) (p := []). constructor. }
  assert (I : In (show_label "happy"%string) (fst (linux_app2 (Ok tt) (Ok tt) (snd (react s1 EPress))))).
  { pose proof (@app2_run_pressed ascii_db nat TestDouble.count_vectorizer
      TestDouble.threshold_classifier linux_libs (snd (react s1 EPress)) eq_refl eq_refl) as P.
    assert (E : demo_label (@clean_text ascii_db (text_input (snd (react s1 EPress))))
                = "happy"%string) by (vm_compute; reflexivity).
    rewrite E in P. exact P. }
  exact (conj T (conj R (conj I (app2_ocr_windows_only _ _ _ _ _ T R I)))).
Defined.

(** A Windows system with tesseract installed where app2.py looks for it. *)
Definition windows_libs : libs := {|
  docx_Document := docx_Document sample_libs;
  PdfReader := PdfReader sample_libs;
  read_csv := read_csv sample_libs;
  read_bytes := read_bytes sample_libs;
  Image_open := Image_open sample_libs;
  tesseract_found c := str_eqb c app2_tesseract_cmd;
  ocr _ := Ok (py "I am so happy")
|}.

Lemma app2_image_live_witness :
  Image_open windows_libs sample_file = Ok {| img_id := 0 |} /\
  tesseract_found windows_libs app2_tesseract_cmd = true /\
  ocr windows_libs {| img_id := 0 |} = Ok (py "I am so happy") /\
  strip_nonempty (py "I am so happy") = true /\
  leads (@app2_run ascii_db nat TestDouble.count_vectorizer TestDouble.threshold_classifier windows_libs)
    (In (show_label (demo_label (@clean_text ascii_db (py "I am so happy"))))) init.
Proof.
  assert (H1 : Image_open windows_libs sample_file = Ok {| img_id := 0 |}) by reflexivity.
  assert (H2 : tesseract_found windows_libs app2_tesseract_cmd = true) by reflexivity.
  assert (H3 : ocr windows_libs {| img_id := 0 |} = Ok (py "I am so happy")) by reflexivity.
  assert (H4 : strip_nonempty (py "I am so happy") = true) by reflexivity.
  exact (conj H1 (conj H2 (conj H3 (conj H4 (app2_image_live windows_libs init _ _ _ H1 H2 H3 H4))))).
Defined.
